(** * CheckIntAPI: the image pipeline of [main.py]

    A shallow embedding of the request pipeline of [main.py]: the values
    decoded from JSON, the exceptions Python raises on them, the outside
    world (files, the generation service, its WebSocket, the FTP server) as
    an explicit state with an oracle for what the outside answers, and the
    functions of the module written over a small state-and-exception monad. *)

From Stdlib Require Import ZArith QArith Qround Qabs Qpower Lqa Lia List Bool Ascii String.
From Stdlib Require Import Floats.SpecFloat.
From stdpp Require Import base option list strings gmap.

Set Warnings "-register-all".

Open Scope Z_scope.
Open Scope string_scope.

(** ** Python values *)

(** What [json.loads] and [response.json()] produce.  Numbers are the
    integers; a [dict] keeps its items in insertion order, with distinct
    keys. *)
Inductive json : Type :=
  | JNull
  | JBool (b : bool)
  | JInt (z : Z)
  | JStr (s : string)
  | JList (l : list json)
  | JDict (d : list (string * json)).

Definition bytes : Type := list Byte.byte.

(** An exception: its class and what [str(e)] gives. *)
Record exc : Type := Exc { exc_class : string; exc_msg : string }.

Definition KeyError (k : string) : exc := Exc "KeyError" ("'" ++ k ++ "'").
Definition TypeError (m : string) : exc := Exc "TypeError" m.
Definition IndexError : exc := Exc "IndexError" "list index out of range".
Definition JSONDecodeError : exc := Exc "JSONDecodeError" "Expecting value".
Definition ValueError (m : string) : exc := Exc "ValueError" m.
Definition OverflowError (m : string) : exc := Exc "OverflowError" m.
Definition ZeroDivisionError : exc := Exc "ZeroDivisionError" "division by zero".
Definition FileNotFoundError (p : string) : exc :=
  Exc "FileNotFoundError" ("[Errno 2] No such file or directory: '" ++ p ++ "'").
Definition IsADirectoryError (p : string) : exc :=
  Exc "IsADirectoryError" ("[Errno 21] Is a directory: '" ++ p ++ "'").
Definition PermissionError (p : string) : exc :=
  Exc "PermissionError" ("[Errno 13] Permission denied: '" ++ p ++ "'").

(** The result of an expression: a value or a raised exception. *)
Inductive res (A : Type) : Type :=
  | Ok (a : A)
  | Err (e : exc).
Arguments Ok {A} a.
Arguments Err {A} e.

Fixpoint assoc (k : string) (d : list (string * json)) : option json :=
  match d with
  | [] => None
  | (k', v) :: d' => if String.eqb k k' then Some v else assoc k d'
  end.

(** [bool(v)]. *)
Definition truthy (v : json) : bool :=
  match v with
  | JNull => false
  | JBool b => b
  | JInt z => negb (Z.eqb z 0)
  | JStr s => negb (String.eqb s "")
  | JList l => match l with [] => false | _ => true end
  | JDict d => match d with [] => false | _ => true end
  end.

(** [a == b] on decoded values: [True == 1], lists compare item by item,
    dicts by their keys. *)
Fixpoint py_eq (a b : json) {struct a} : bool :=
  match a, b with
  | JNull, JNull => true
  | JBool x, JBool y => Bool.eqb x y
  | JBool x, JInt n => Z.eqb n (if x then 1 else 0)
  | JInt n, JBool x => Z.eqb n (if x then 1 else 0)
  | JInt m, JInt n => Z.eqb m n
  | JStr s, JStr t => String.eqb s t
  | JList xs, JList ys =>
      (fix items (xs ys : list json) {struct xs} : bool :=
         match xs, ys with
         | [], [] => true
         | x :: xs', y :: ys' => py_eq x y && items xs' ys'
         | _, _ => false
         end) xs ys
  | JDict xs, JDict ys =>
      Nat.eqb (length xs) (length ys) &&
      (fix items (xs : list (string * json)) {struct xs} : bool :=
         match xs with
         | [] => true
         | (k, v) :: xs' =>
             match assoc k ys with
             | Some w => py_eq v w
             | None => false
             end && items xs'
         end) xs
  | _, _ => false
  end.

(** [v[key]] for a string key. *)
Definition getitem (v : json) (key : string) : res json :=
  match v with
  | JDict d =>
      match assoc key d with
      | Some x => Ok x
      | None => Err (KeyError key)
      end
  | JList _ => Err (TypeError "list indices must be integers or slices, not str")
  | JStr _ => Err (TypeError "string indices must be integers, not 'str'")
  | JNull => Err (TypeError "'NoneType' object is not subscriptable")
  | JBool _ => Err (TypeError "'bool' object is not subscriptable")
  | JInt _ => Err (TypeError "'int' object is not subscriptable")
  end.

(** [v[0]]. *)
Definition getitem0 (v : json) : res json :=
  match v with
  | JList (x :: _) => Ok x
  | JList [] => Err IndexError
  | JStr (String c _) => Ok (JStr (String c ""))
  | JStr "" => Err (Exc "IndexError" "string index out of range")
  | JDict _ => Err (Exc "KeyError" "0")
  | JNull => Err (TypeError "'NoneType' object is not subscriptable")
  | JBool _ => Err (TypeError "'bool' object is not subscriptable")
  | JInt _ => Err (TypeError "'int' object is not subscriptable")
  end.

(** [sub in s] on strings. *)
Fixpoint str_contains (sub s : string) : bool :=
  String.prefix sub s ||
  match s with
  | "" => false
  | String _ s' => str_contains sub s'
  end.

(** [key in v], for a string key. *)
Definition contains (key : string) (v : json) : res bool :=
  match v with
  | JDict d => Ok (bool_decide (is_Some (assoc key d)))
  | JList l => Ok (existsb (fun x => py_eq (JStr key) x) l)
  | JStr s => Ok (str_contains key s)
  | JNull => Err (TypeError "argument of type 'NoneType' is not iterable")
  | JBool _ => Err (TypeError "argument of type 'bool' is not iterable")
  | JInt _ => Err (TypeError "argument of type 'int' is not iterable")
  end.

(** [v[key] = x] on a dict. *)
Fixpoint assoc_set (k : string) (x : json) (d : list (string * json))
  : list (string * json) :=
  match d with
  | [] => [(k, x)]
  | (k', v) :: d' =>
      if String.eqb k k' then (k', x) :: d' else (k', v) :: assoc_set k x d'
  end.

Definition setitem (v : json) (key : string) (x : json) : res json :=
  match v with
  | JDict d => Ok (JDict (assoc_set key x d))
  | JList _ => Err (TypeError "list indices must be integers or slices, not str")
  | JStr _ => Err (TypeError "'str' object does not support item assignment")
  | JNull => Err (TypeError "'NoneType' object does not support item assignment")
  | JBool _ => Err (TypeError "'bool' object does not support item assignment")
  | JInt _ => Err (TypeError "'int' object does not support item assignment")
  end.

(** ** The outside world *)

(** What the process does to the outside, in order. *)
Inductive event : Type :=
  | EWsConnect (url : string)
  | EWsRecv
  | EWsClose
  | EHttpPostPrompt
  | EHttpPostUpload (filename : string)
  | EHttpGetView (filename subfolder folder_type : json)
  | EFtpLogin (host : string)
  | EFtpCwd (dir : string)
  | EFtpStor (command : string)
  | EFtpQuit
  | EFileRead (path : string)
  | EFileWrite (path : string).

(** The state the functions work on: the local files, the number of
    WebSocket connections that are open, and the log of what was done. *)
Record world : Type := World {
  fs : gmap string bytes;
  sockets : nat;
  trace : list event
}.

(** One answer of [ws.recv()]: a text frame (here with what [json.loads]
    makes of it, [None] when it does not decode), a binary frame, or an
    exception of the connection. *)
Inductive frame : Type :=
  | FText (doc : option json)
  | FBinary (b : bytes).

Inductive ws_event : Type :=
  | Recv (out : frame)
  | RecvFail (e : exc).

(** A raster image: its size and its pixels, row by row. *)
Record image (P : Type) : Type := Image {
  im_width : Z;
  im_height : Z;
  im_data : list P
}.
Arguments Image {P} im_width im_height im_data.
Arguments im_width {P} i.
Arguments im_height {P} i.
Arguments im_data {P} i.

(** A step of a function: it returns, raises, or waits for a frame that has
    not arrived. *)
Inductive outcome (A : Type) : Type :=
  | Ret (a : A)
  | Raise (e : exc)
  | Block.
Arguments Ret {A} a.
Arguments Raise {A} e.
Arguments Block {A}.

Definition M (A : Type) : Type := world -> outcome A * world.

Definition ret {A} (a : A) : M A := fun w => (Ret a, w).
Definition raise {A} (e : exc) : M A := fun w => (Raise e, w).
Definition block {A} : M A := fun w => (Block, w).

Definition bind {A B} (m : M A) (k : A -> M B) : M B :=
  fun w =>
    match m w with
    | (Ret a, w') => k a w'
    | (Raise e, w') => (Raise e, w')
    | (Block, w') => (Block, w')
    end.

Notation "'do' x <- m ; k" := (bind m (fun x => k))
  (at level 10, x name, m at level 100, k at level 200).
Notation "'run' m ; k" := (bind m (fun _ => k))
  (at level 10, m at level 100, k at level 200).

Definition lift {A} (r : res A) : M A :=
  match r with
  | Ok a => ret a
  | Err e => raise e
  end.

Definition log (ev : event) : M unit :=
  fun w => (Ret tt, World (fs w) (sockets w) (trace w ++ [ev])).

(** [try: body finally: fin]. *)
Definition try_finally {A} (body : M A) (fin : M unit) : M A :=
  fun w =>
    match body w with
    | (Block, w') => (Block, w')
    | (r, w') =>
        match fin w' with
        | (Ret _, w'') => (r, w'')
        | (Raise e, w'') => (Raise e, w'')
        | (Block, w'') => (Block, w'')
        end
    end.

(** [try: body except Exception as e: handler(e)]. *)
Definition try_except {A} (body : M A) (handler : exc -> M A) : M A :=
  fun w =>
    match body w with
    | (Raise e, w') => handler e w'
    | r => r
    end.

(** ** Paths and files *)

Definition OUTPUT_DIR : string := "merged_images".
Definition FINAL_IMAGES_DIR : string := "final_images".
Definition COMFYUI_URL : string := "127.0.0.1:8188".
Definition COMFYUI_HTTP_URL : string := "http://" ++ COMFYUI_URL.
Definition WORKFLOW_API_JSON_PATH : string := "CheckInt.json".
Definition LOAD_IMAGE_NODE_ID : string := "16".
Definition SAVE_IMAGE_NODE_ID : string := "35".

Definition starts_with_slash (s : string) : bool :=
  match s with
  | String c _ => Ascii.eqb c "/"%char
  | "" => false
  end.

Fixpoint ends_with_slash (s : string) : bool :=
  match s with
  | "" => false
  | String c "" => Ascii.eqb c "/"%char
  | String _ s' => ends_with_slash s'
  end.

(** [os.path.join(a, b)] on POSIX. *)
Definition os_path_join (a b : string) : string :=
  if starts_with_slash b then b
  else if String.eqb a "" || ends_with_slash a then a ++ b
  else a ++ "/" ++ b.

(** [os.path.basename(p)]: what follows the last slash. *)
Fixpoint basename_from (acc s : string) : string :=
  match s with
  | "" => acc
  | String c s' =>
      if Ascii.eqb c "/"%char then basename_from "" s'
      else basename_from (acc ++ String c "") s'
  end.

Definition basename (p : string) : string := basename_from "" p.

(** Whether [open(path, 'wb')] names a directory: the path ends in a slash,
    or in the entry [.] or [..]. *)
Definition names_directory (path : string) : bool :=
  let b := basename path in
  String.eqb b "" || String.eqb b "." || String.eqb b "..".

(** [os.fspath(v)] for a decoded value, as [os.path.join] applies it to its
    arguments: only a [str] is a path. *)
Definition fspath (v : json) : res string :=
  match v with
  | JStr b => Ok b
  | _ => Err (TypeError "join() argument must be str, bytes, or os.PathLike object")
  end.

(** ** Floating point *)

(** A finite [float] is the rational it stands for.  An operation of
    binary64 is the exact result rounded to the nearest representable
    value, ties to the even significand (IEEE 754): 53 bits of precision,
    least exponent -1074, overflow from 2^1024. *)

Definition pow2 (e : Z) : Q := Qpower 2 e.

(** [floor(log2 q)] for [q > 0]. *)
Definition ilog2 (q : Q) : Z :=
  let k := Z.log2 (Qnum q) - Z.log2 (Zpos (Qden q)) in
  if Qle_bool (pow2 k) q then k else k - 1.

(** The nearest integer, ties to even. *)
Definition round_half_even (q : Q) : Z :=
  let f := Qfloor q in
  match Qcompare (q - inject_Z f) (1 # 2) with
  | Lt => f
  | Gt => f + 1
  | Eq => if Z.even f then f else f + 1
  end.

(** The exponent of the last place of the binary64 value nearest to [q]. *)
Definition float_exponent (q : Q) : Z := Z.max (ilog2 (Qabs q) - 52) (-1074).

Definition round_float (q : Q) : Q :=
  if Qeq_bool q 0 then 0
  else
    let e := float_exponent q in
    Qred (inject_Z (round_half_even (q / pow2 e)) * pow2 e).

Definition float_overflows (q : Q) : bool := Qle_bool (pow2 1024) (Qabs q).

Inductive pyfloat : Type :=
  | Finite (q : Q)
  | Infinity (negative : bool).

(** [float(n)]. *)
Definition float_of_int (n : Z) : res Q :=
  let r := round_float (inject_Z n) in
  if float_overflows r then Err (OverflowError "int too large to convert to float")
  else Ok r.

(** [a / b] on ints: the quotient, correctly rounded. *)
Definition py_truediv (a b : Z) : res Q :=
  if Z.eqb b 0 then Err ZeroDivisionError
  else
    let r := round_float (inject_Z a / inject_Z b) in
    if float_overflows r
    then Err (OverflowError "integer division result too large for a float")
    else Ok r.

(** [n * x] for an int [n] and a finite float [x]. *)
Definition py_mul_int_float (n : Z) (x : Q) : res pyfloat :=
  match float_of_int n with
  | Err e => Err e
  | Ok y =>
      let r := round_float (y * x) in
      if float_overflows r then Ok (Infinity (Qle_bool r 0)) else Ok (Finite r)
  end.

(** [int(x)]: truncation towards zero. *)
Definition py_int (x : pyfloat) : res Z :=
  match x with
  | Finite q => Ok (Z.quot (Qnum q) (Zpos (Qden q)))
  | Infinity _ => Err (OverflowError "cannot convert float infinity to integer")
  end.

(** The same operations in the Standard Library's model of IEEE 754
    ([SpecFloat], binary64), to compare with. *)
Definition b64_of_Z (n : Z) : spec_float := binary_normalize 53 1024 n 0 false.

Definition b64_trunc (x : spec_float) : option Z :=
  match x with
  | S754_zero _ => Some 0
  | S754_finite s m e =>
      let a := match e with
               | Z0 => Zpos m
               | Zpos p => Zpos m * 2 ^ Zpos p
               | Zneg p => Zpos m / 2 ^ Zpos p
               end in
      Some (if s then - a else a)
  | _ => None
  end.

Definition b64_scaled_height (w h W : Z) : option Z :=
  b64_trunc (SFmul 53 1024 (b64_of_Z W) (SFdiv 53 1024 (b64_of_Z h) (b64_of_Z w))).

(** ** Images *)

Definition res_bind {A B} (r : res A) (k : A -> res B) : res B :=
  match r with
  | Ok a => k a
  | Err e => Err e
  end.

Notation "'get' x <- r ; k" := (res_bind r (fun x => k))
  (at level 10, x name, r at level 100, k at level 200).

(** [im.size]. *)
Definition size {P} (im : image P) : Z * Z := (im_width im, im_height im).

(** An image holds one pixel for each position. *)
Definition well_formed {P} (im : image P) : Prop :=
  0 <= im_width im /\ 0 <= im_height im /\
  Z.of_nat (length (im_data im)) = im_width im * im_height im.

(** The size the handler scales the foreground to (lines 175-177). *)
Definition new_foreground_size (background_width fg_width fg_height : Z)
  : res (Z * Z) :=
  get aspect_ratio <- py_truediv fg_height fg_width;
  let new_foreground_width := background_width in
  get product <- py_mul_int_float new_foreground_width aspect_ratio;
  get new_foreground_height <- py_int product;
  Ok (new_foreground_width, new_foreground_height).

(** ** What the outside answers *)

(** Everything the module gets from outside the process: the environment
    variables, the clock, the generation service, the FTP server, the file
    permissions and the imaging libraries.  [P] is the type of a pixel. *)
Record environment (P : Type) : Type := Environment {
  (* os.getenv *)
  FTP_HOST : option string;
  FTP_USER : option string;
  FTP_PASS : option string;
  FTP_TARGET_DIR : option string;
  BASE_PUBLIC_URL : option string;
  (* datetime.now().strftime("%Y%m%d_%H%M%S%f") and str(uuid.uuid4()) *)
  now_timestamp : string;
  uuid4 : string;
  (* whether open(path, 'wb') is allowed *)
  can_write : string -> bool;
  (* the generation service; None is a RequestException *)
  post_prompt : json -> string -> option json;
  post_upload_image : string -> bytes -> option json;
  get_view : json -> json -> json -> option bytes;
  (* its WebSocket: whether connecting fails, and the frames that arrive *)
  ws_create_connection : string -> option exc;
  ws_frames : string -> list ws_event;
  (* the FTP server: the exception of each command, if any *)
  ftp_login : string -> string -> string -> option exc;
  ftp_cwd : string -> option exc;
  ftp_storbinary : string -> bytes -> option exc;
  ftp_quit : option exc;
  (* json.load, PIL, rembg *)
  json_load : bytes -> res json;
  image_open : bytes -> res (image P);
  remove_background : image P -> res (image P);
  resample : image P -> Z -> Z -> list P;
  paste_accepts : image P -> image P -> bool;
  blend : P -> P -> P;
  png_encode : image P -> res bytes
}.

Arguments FTP_HOST {P} e.
Arguments FTP_USER {P} e.
Arguments FTP_PASS {P} e.
Arguments FTP_TARGET_DIR {P} e.
Arguments BASE_PUBLIC_URL {P} e.
Arguments now_timestamp {P} e.
Arguments uuid4 {P} e.
Arguments can_write {P} e.
Arguments post_prompt {P} e.
Arguments post_upload_image {P} e.
Arguments get_view {P} e.
Arguments ws_create_connection {P} e.
Arguments ws_frames {P} e.
Arguments ftp_login {P} e.
Arguments ftp_cwd {P} e.
Arguments ftp_storbinary {P} e.
Arguments ftp_quit {P} e.
Arguments json_load {P} e.
Arguments image_open {P} e.
Arguments remove_background {P} e.
Arguments resample {P} e.
Arguments paste_accepts {P} e.
Arguments blend {P} e.
Arguments png_encode {P} e.

(** [bool(os.getenv(...))]: set, and not to the empty string. *)
Definition configured (v : option string) : bool :=
  match v with
  | Some s => negb (String.eqb s "")
  | None => false
  end.

Definition env_str (v : option string) : string :=
  match v with
  | Some s => s
  | None => "None"
  end.

Section Pipeline.

Context {P : Type}.
Variable E : environment P.

(** *** Files *)

(** [with open(path, 'wb') as f: f.write(content)]. *)
Definition write_file (path : string) (content : bytes) : M unit :=
  if String.eqb path "" then raise (FileNotFoundError path)
  else if names_directory path then raise (IsADirectoryError path)
  else if can_write E path then
    fun w => (Ret tt, World (<[path := content]> (fs w)) (sockets w)
                            (trace w ++ [EFileWrite path]))
  else raise (PermissionError path).

(** [with open(path, 'rb') as f: ... f.read()]. *)
Definition read_file (path : string) : M bytes :=
  fun w =>
    match fs w !! path with
    | Some content =>
        (Ret content, World (fs w) (sockets w) (trace w ++ [EFileRead path]))
    | None => (Raise (FileNotFoundError path), w)
    end.

(** *** The generation client *)

Definition queue_prompt (prompt_workflow : json) (client_id : string)
  : M (option json) :=
  run log EHttpPostPrompt;
  ret (post_prompt E prompt_workflow client_id).

Definition upload_image_to_comfyui (image_path filename : string)
  : M (option json) :=
  try_except
    (do f <- read_file image_path;
     run log (EHttpPostUpload filename);
     ret (post_upload_image E filename f))
    (fun e =>
       if String.eqb (exc_class e) "FileNotFoundError" then ret None
       else raise e).

Definition get_image_from_comfyui (filename subfolder folder_type : json)
  : M (option bytes) :=
  run log (EHttpGetView filename subfolder folder_type);
  ret (get_view E filename subfolder folder_type).

(** *** The completion watcher *)

Definition ws_url (client_id : string) : string :=
  "ws://" ++ COMFYUI_URL ++ "/ws?clientId=" ++ client_id.

Definition create_connection (url : string) : M unit :=
  match ws_create_connection E url with
  | Some e => raise e
  | None =>
      fun w => (Ret tt, World (fs w) (S (sockets w)) (trace w ++ [EWsConnect url]))
  end.

Definition ws_close : M unit :=
  fun w => (Ret tt, World (fs w) (Nat.pred (sockets w)) (trace w ++ [EWsClose])).

Definition ws_recv (ev : ws_event) : M frame :=
  run log EWsRecv;
  match ev with
  | Recv out => ret out
  | RecvFail e => raise e
  end.

(** The body of the [while True] loop for one frame: [Some r] when it
    executes [return r], [None] when it falls through to the next
    [ws.recv()]. *)
Definition on_frame (prompt_id : json) (out : frame)
  : M (option (option string)) :=
  match out with
  | FBinary _ => ret None
  | FText doc =>
      do message <- lift (match doc with
                          | Some v => Ok v
                          | None => Err JSONDecodeError
                          end);
      do ty <- lift (getitem message "type");
      if py_eq ty (JStr "executed") then
        do data <- lift (getitem message "data");
        do pid <- lift (getitem data "prompt_id");
        if py_eq pid prompt_id then
          do data' <- lift (getitem message "data");
          do output <- lift (getitem data' "output");
          do output_data <- lift (getitem output "images");
          if negb (truthy output_data) then ret (Some None)
          else
            do first_image_data <- lift (getitem0 output_data);
            do filename <- lift (getitem first_image_data "filename");
            do subfolder <- lift (getitem first_image_data "subfolder");
            do folder_type <- lift (getitem first_image_data "type");
            do image_content <-
              get_image_from_comfyui filename subfolder folder_type;
            match image_content with
            | Some (b :: content) =>
                do final_filename <- lift (getitem first_image_data "filename");
                do name <- lift (fspath final_filename);
                let final_image_path := os_path_join FINAL_IMAGES_DIR name in
                run write_file final_image_path (b :: content);
                ret (Some (Some name))
            | _ => ret None
            end
        else ret None
      else ret None
  end.

Fixpoint receive_loop (prompt_id : json) (inbox : list ws_event)
  : M (option string) :=
  match inbox with
  | [] => block
  | ev :: inbox' =>
      do out <- ws_recv ev;
      do r <- on_frame prompt_id out;
      match r with
      | Some result => ret result
      | None => receive_loop prompt_id inbox'
      end
  end.

Definition get_final_image_path_from_websocket
    (prompt_id : json) (client_id : string) : M (option string) :=
  let url := ws_url client_id in
  run create_connection url;
  try_finally (receive_loop prompt_id (ws_frames E url)) ws_close.

(** *** The publisher *)

Definition ftp_connect (host user pass : string) : M unit :=
  run log (EFtpLogin host);
  match ftp_login E host user pass with
  | Some e => raise e
  | None => ret tt
  end.

Definition ftp_change_dir (dir : string) : M unit :=
  run log (EFtpCwd dir);
  match ftp_cwd E dir with
  | Some e => raise e
  | None => ret tt
  end.

Definition ftp_store (command : string) (f : bytes) : M unit :=
  run log (EFtpStor command);
  match ftp_storbinary E command f with
  | Some e => raise e
  | None => ret tt
  end.

Definition ftp_close : M unit :=
  run log EFtpQuit;
  match ftp_quit E with
  | Some e => raise e
  | None => ret tt
  end.

Definition ftp_config_missing : string :=
  "FTP configuration is missing. Please check your .env file".

(** [all([FTP_HOST, FTP_USER, FTP_PASS, FTP_TARGET_DIR])]. *)
Definition ftp_configured : bool :=
  configured (FTP_HOST E) && configured (FTP_USER E) &&
  configured (FTP_PASS E) && configured (FTP_TARGET_DIR E).

(** The body of the [try] of the publisher (lines 139-146). *)
Definition ftp_transfer (file_path filename : string) : M (bool * string) :=
  run ftp_connect (env_str (FTP_HOST E)) (env_str (FTP_USER E))
                  (env_str (FTP_PASS E));
  run ftp_change_dir (env_str (FTP_TARGET_DIR E));
  do f <- read_file file_path;
  run ftp_store ("STOR " ++ filename) f;
  run ftp_close;
  ret (true, "File '" ++ filename ++ "' uploaded to FTP successfully!").

Definition upload_final_image_to_ftp (file_path filename : string)
  : M (bool * string) :=
  if negb ftp_configured then
    let error_msg := ftp_config_missing in
    ret (false, error_msg)
  else
    try_except (ftp_transfer file_path filename)
               (fun e => ret (false, exc_msg e)).

(** *** The compositor (lines 172-188 of [merge_images]) *)

(** [im.resize(size, Image.Resampling.LANCZOS)]. *)
Definition image_resize (im : image P) (sz : Z * Z) : res (image P) :=
  let '(xsize, ysize) := sz in
  if Z.eqb (im_width im) xsize && Z.eqb (im_height im) ysize then Ok im
  else if Z.ltb xsize 1 || Z.ltb ysize 1
  then Err (ValueError "height and width must be > 0")
  else Ok (Image xsize ysize (resample E im xsize ysize)).

(** One pixel of [dst.paste(src, box, src)]: the pixel of [src] that the box
    puts there, blended in through its own alpha; outside the box, or where
    the box leaves the image, the pixel is kept. *)
Definition paste_pixel (dst src : image P) (box : Z * Z) (i : nat) (q : P) : P :=
  let x := Z.of_nat i mod im_width dst in
  let y := Z.of_nat i / im_width dst in
  let sx := x - fst box in
  let sy := y - snd box in
  if Z.leb 0 sx && Z.ltb sx (im_width src) && Z.leb 0 sy && Z.ltb sy (im_height src)
  then
    match im_data src !! Z.to_nat (sy * im_width src + sx) with
    | Some p => blend E p q
    | None => q
    end
  else q.

Definition image_paste (dst src : image P) (box : Z * Z) : res (image P) :=
  if paste_accepts E dst src
  then Ok (Image (im_width dst) (im_height dst)
                 (imap (paste_pixel dst src box) (im_data dst)))
  else Err (ValueError "bad transparency mask").

(** The foreground after [resize]. *)
Definition resized_foreground (background_image foreground_no_bg : image P)
  : res (image P) :=
  let '(background_width, background_height) := size background_image in
  let '(fg_width, fg_height) := size foreground_no_bg in
  get new_size <- new_foreground_size background_width fg_width fg_height;
  image_resize foreground_no_bg new_size.

(** Where the foreground is pasted (lines 184-186). *)
Definition paste_position (background_image : image P) (new_size : Z * Z)
  : Z * Z :=
  let '(background_width, background_height) := size background_image in
  let '(new_foreground_width, new_foreground_height) := new_size in
  let pos_x := (background_width - new_foreground_width) / 2 in
  let pos_y := background_height - new_foreground_height in
  (pos_x, pos_y).

(** The background after [paste]: the image that is saved. *)
Definition composite (background_image foreground_no_bg : image P)
  : res (image P) :=
  let '(background_width, background_height) := size background_image in
  let '(fg_width, fg_height) := size foreground_no_bg in
  get new_size <- new_foreground_size background_width fg_width fg_height;
  get resized <- image_resize foreground_no_bg new_size;
  let position := paste_position background_image new_size in
  image_paste background_image resized position.

(** *** The request handler *)

(** [prompt_workflow[node]['inputs'][key] = value]. *)
Definition set_node_input (prompt_workflow : json) (node key : string)
    (value : json) : res json :=
  get node_obj <- getitem prompt_workflow node;
  get inputs <- getitem node_obj "inputs";
  get inputs' <- setitem inputs key value;
  get node_obj' <- setitem node_obj "inputs" inputs';
  setitem prompt_workflow node node_obj'.

(** [not response or key not in response]. *)
Definition lacks (key : string) (response : option json) : res bool :=
  match response with
  | None => Ok true
  | Some v =>
      if negb (truthy v) then Ok true
      else get present <- contains key v; Ok (negb present)
  end.

Definition response_of (response : option json) : json :=
  match response with
  | Some v => v
  | None => JNull
  end.

(** [jsonify(body), status]. *)
Definition response : Type := json * Z.

Definition missing_files_response : response :=
  (JDict [("error", JStr "Missing one or both files in the request")], 400).

Definition not_selected_response : response :=
  (JDict [("error", JStr "One or both files are not selected")], 400).

Definition upload_failed_response : response :=
  (JDict [("error", JStr "Failed to upload merge image to ComfyUI")], 500).

Definition queue_failed_response : response :=
  (JDict [("error", JStr "Failed to queue prompt in ComfyUI")], 500).

Definition no_base_url_response : response :=
  (JDict [("error", JStr "BASE_PUBLIC_URL is not set in .env file")], 500).

Definition success_response (final_image_url : string) : response :=
  (JDict [("message", JStr "Workflow complete. File uploaded successfully.");
          ("final_image_url", JStr final_image_url)], 200).

Definition ftp_failed_response (final_filename message : string) : response :=
  (JDict [("message",
           JStr "Workflow completed, but failed to upload image to FTP server.");
          ("error", JStr "Could not upload the final image via FTP.");
          ("final_image_filename", JStr final_filename);
          ("ftp_error_details", JStr message)], 500).

Definition no_final_image_response : response :=
  (JDict [("error",
           JStr "Workflow completed but could not retrived final image from ComfyUI")],
   500).

Definition internal_error_response (exception : exc) : response :=
  (JDict [("error", JStr "An internal server error occurred ");
          ("details", JStr (exc_msg exception))], 500).

(** An entry of [request.files]. *)
Record file_storage : Type := FileStorage {
  filename : string;
  stream : bytes
}.

Record request : Type := Request {
  foreground_file : option file_storage;
  background_file : option file_storage
}.

(** Lines 164-193: decode, remove the background, composite, save. *)
Definition composite_stage (fg bg : file_storage) : M (string * string * string) :=
  do foreground_image <- lift (image_open E (stream fg));
  do background_image <- lift (image_open E (stream bg));
  do foreground_no_bg <- lift (remove_background E foreground_image);
  do merged <- lift (composite background_image foreground_no_bg);
  let timestamp := now_timestamp E in
  let merged_filename := "merged_result_" ++ timestamp ++ ".png" in
  let merged_path := os_path_join OUTPUT_DIR merged_filename in
  do png <- lift (png_encode E merged);
  run write_file merged_path png;
  ret (timestamp, merged_filename, merged_path).

(** Lines 205-213: the job descriptor. *)
Definition prepare_workflow (comfyui_filename : json) (timestamp : string)
  : M json :=
  do f <- read_file WORKFLOW_API_JSON_PATH;
  do prompt_workflow <- lift (json_load E f);
  do prompt_workflow1 <-
    lift (set_node_input prompt_workflow LOAD_IMAGE_NODE_ID "image"
                         comfyui_filename);
  let output_prefix := "checkint_" ++ timestamp in
  lift (set_node_input prompt_workflow1 SAVE_IMAGE_NODE_ID "filename_prefix"
                       (JStr output_prefix)).

(** Lines 223-249: publish and answer. *)
Definition publish_stage (final_filename : option string) : M response :=
  match final_filename with
  | Some name =>
      if String.eqb name "" then ret no_final_image_response
      else
        let final_image_path := os_path_join FINAL_IMAGES_DIR name in
        do published <- upload_final_image_to_ftp final_image_path name;
        let '(success, message) := published in
        if success then
          if negb (configured (BASE_PUBLIC_URL E)) then ret no_base_url_response
          else
            let final_image_url := env_str (BASE_PUBLIC_URL E) ++ name in
            ret (success_response final_image_url)
        else ret (ftp_failed_response name message)
  | None => ret no_final_image_response
  end.

(** The body of the [try] (lines 164-249). *)
Definition pipeline (fg bg : file_storage) : M response :=
  do merged <- composite_stage fg bg;
  let '(timestamp, merged_filename, merged_path) := merged in
  do upload_response <- upload_image_to_comfyui merged_path merged_filename;
  do upload_missing <- lift (lacks "name" upload_response);
  if upload_missing then ret upload_failed_response
  else
    do comfyui_filename <- lift (getitem (response_of upload_response) "name");
    do prompt_workflow <- prepare_workflow comfyui_filename timestamp;
    let client_id := uuid4 E in
    do queue_response <- queue_prompt prompt_workflow client_id;
    do queue_missing <- lift (lacks "prompt_id" queue_response);
    if queue_missing then ret queue_failed_response
    else
      do prompt_id <- lift (getitem (response_of queue_response) "prompt_id");
      do final_filename <- get_final_image_path_from_websocket prompt_id client_id;
      publish_stage final_filename.

(** [POST /merge_images]. *)
Definition merge_images (req : request) : M response :=
  match foreground_file req, background_file req with
  | Some fg, Some bg =>
      if String.eqb (filename fg) "" || String.eqb (filename bg) ""
      then ret not_selected_response
      else try_except (pipeline fg bg)
                      (fun exception => ret (internal_error_response exception))
  | _, _ => ret missing_files_response
  end.

(** *** Serving a final image *)








End Pipeline.

(** * Events of the generation service *)

(** The job id embedded in an event: [message['data']['prompt_id']]. *)
Definition embedded_job_id (message : json) : res json :=
  get data <- getitem message "data";
  getitem data "prompt_id".

(** The output images of an event: [message['data']['output']['images']]. *)
Definition output_images (message : json) : res json :=
  get data <- getitem message "data";
  get output <- getitem data "output";
  getitem output "images".

(** A terminal [executed] event for the job. *)
Definition awaited (prompt_id : json) (message : json) : Prop :=
  exists ty pid,
    getitem message "type" = Ok ty /\ py_eq ty (JStr "executed") = true /\
    embedded_job_id message = Ok pid /\ py_eq pid prompt_id = true.

(** A frame that is not the one waited for: not a text frame, or an event of
    another type, or an [executed] event of another job. *)
Inductive unawaited (prompt_id : json) : frame -> Prop :=
  | unawaited_not_text (b : bytes) :
      unawaited prompt_id (FBinary b)
  | unawaited_other_type (message ty : json) :
      getitem message "type" = Ok ty ->
      py_eq ty (JStr "executed") = false ->
      unawaited prompt_id (FText (Some message))
  | unawaited_other_job (message ty pid : json) :
      getitem message "type" = Ok ty ->
      py_eq ty (JStr "executed") = true ->
      embedded_job_id message = Ok pid ->
      py_eq pid prompt_id = false ->
      unawaited prompt_id (FText (Some message)).


(** A [ws.recv()] that delivers such a frame. *)
Definition delivers (Q : frame -> Prop) (ev : ws_event) : Prop :=
  exists out, ev = Recv out /\ Q out.

(** The first image descriptor of an event names what [/view] is asked. *)
Definition first_image (message : json) (filename subfolder folder_type : json)
  : Prop :=
  exists images first,
    output_images message = Ok images /\ truthy images = true /\
    getitem0 images = Ok first /\
    getitem first "filename" = Ok filename /\
    getitem first "subfolder" = Ok subfolder /\
    getitem first "type" = Ok folder_type.

(** The state once [n] more frames were received. *)
Definition received (n : nat) (w : world) : world :=
  World (fs w) (sockets w) (trace w ++ repeat EWsRecv n).

(** The state once the connection is open. *)
Definition connected (url : string) (w : world) : world :=
  World (fs w) (S (sockets w)) (trace w ++ [EWsConnect url]).

(** [bool(image_content)] is false: [None], or no bytes. *)
Definition nothing (content : option bytes) : Prop :=
  content = None \/ content = Some [].

(** * A mocked generation service *)

Module Mock.

Definition image_bytes : bytes := [Byte.x89; Byte.x50; Byte.x4e; Byte.x47].

Definition descriptor (name : string) : json :=
  JDict [("filename", JStr name); ("subfolder", JStr ""); ("type", JStr "output")].

(** An [executed] event for a job, with its output images. *)
Definition executed (job : string) (images : list json) : json :=
  JDict [("type", JStr "executed");
         ("data", JDict [("node", JStr "35");
                         ("output", JDict [("images", JList images)]);
                         ("prompt_id", JStr job)])].

Definition progress (job : string) : json :=
  JDict [("type", JStr "progress");
         ("data", JDict [("value", JInt 3); ("max", JInt 20);
                         ("prompt_id", JStr job)])].

Definition workflow : json :=
  JDict [("16", JDict [("inputs", JDict [("image", JStr "example.png")]);
                       ("class_type", JStr "LoadImage")]);
         ("35", JDict [("inputs", JDict [("filename_prefix", JStr "ComfyUI")]);
                       ("class_type", JStr "SaveImage")])].

(** Pixels are grey levels; an opaque paste. *)
Definition decode (b : bytes) : res (image Z) :=
  match b with
  | [] => Err (Exc "UnidentifiedImageError" "cannot identify image file")
  | [_] => Ok (Image 2 1 [10; 20])
  | _ => Ok (Image 2 2 [1; 2; 3; 4])
  end.

(** What varies from one run to the next: the answers to the upload and
    to the submission, the frames, the answer of [/view], the FTP host,
    the failure of the transfer and the public prefix. *)
Record scenario : Type := Scenario {
  sc_upload : option json;
  sc_queue : option json;
  sc_frames : list ws_event;
  sc_view : option bytes;
  sc_host : option string;
  sc_ftp_failure : option exc;
  sc_base : option string
}.

Definition env (s : scenario) : environment Z :=
  {| FTP_HOST := sc_host s;
     FTP_USER := Some "user";
     FTP_PASS := Some "secret";
     FTP_TARGET_DIR := Some "/public";
     BASE_PUBLIC_URL := sc_base s;
     now_timestamp := "20240101_120000000000";
     uuid4 := "c0ffee";
     can_write := fun _ => true;
     post_prompt := fun _ _ => sc_queue s;
     post_upload_image := fun _ _ => sc_upload s;
     get_view := fun _ _ _ => sc_view s;
     ws_create_connection := fun _ => None;
     ws_frames := fun _ => sc_frames s;
     ftp_login := fun _ _ _ => None;
     ftp_cwd := fun _ => None;
     ftp_storbinary := fun _ _ => sc_ftp_failure s;
     ftp_quit := None;
     json_load := fun _ => Ok workflow;
     image_open := decode;
     remove_background := fun im => Ok im;
     resample := fun im w h => repeat 7 (Z.to_nat (w * h));
     paste_accepts := fun _ _ => true;
     blend := fun p _ => p;
     png_encode := fun _ => Ok image_bytes |}.

Definition uploaded : option json := Some (JDict [("name", JStr "merged.png")]).
Definition queued : option json := Some (JDict [("prompt_id", JStr "job-1")]).
Definition host : option string := Some "ftp.example.org".
Definition base_url : option string := Some "https://example.org/img/".
Definition refused : exc := Exc "error_perm" "550 Permission denied".

(** The service as the watcher sees it. *)
Definition watching (frames : list ws_event) (view : option bytes) : scenario :=
  Scenario uploaded queued frames view host None base_url.

(** One "executed" event with one image, fetched. *)
Definition completes (name : string) : list ws_event :=
  [Recv (FText (Some (executed "job-1" [descriptor name])))].

Definition world0 : world :=
  World {[ WORKFLOW_API_JSON_PATH := image_bytes ]} 0 [].

Definition upload (name : string) (b : bytes) : option file_storage :=
  Some (FileStorage name b).

Definition request0 : request :=
  Request (upload "person.png" [Byte.x01]) (upload "beach.png" [Byte.x01; Byte.x02]).

End Mock.

(** * Stages of a request *)

(** Both files are in the request, with a name. *)
Definition valid_request (req : request) (fg bg : file_storage) : Prop :=
  foreground_file req = Some fg /\ background_file req = Some bg /\
  filename fg <> "" /\ filename bg <> "".


(** A response with the field. *)
Definition has_field (key : string) (response : option json) (value : json)
  : Prop :=
  exists d, response = Some (JDict d) /\ assoc key d = Some value.

Section Stages.

Context {P : Type} (E : environment P).

(** The composite is saved and uploaded as an asset, from state [w] to [w2]. *)
Definition asset_stage (fg bg : file_storage) (w : world)
    (timestamp : string) (upload_response : option json) (w2 : world) : Prop :=
  exists merged_filename merged_path w1,
    composite_stage E fg bg w = (Ret (timestamp, merged_filename, merged_path), w1) /\
    upload_image_to_comfyui E merged_path merged_filename w1 = (Ret upload_response, w2).

(** The job is described and submitted, from state [w2] to [w4]. *)
Definition job_stage (comfyui_filename : json) (timestamp : string) (w2 : world)
    (queue_response : option json) (w4 : world) : Prop :=
  exists prompt_workflow w3,
    prepare_workflow E comfyui_filename timestamp w2 = (Ret prompt_workflow, w3) /\
    queue_prompt E prompt_workflow (uuid4 E) w3 = (Ret queue_response, w4).

(** The generation stage succeeds: composite, asset upload, job submission,
    and the watcher returns the name of the final image, in state [w5]. *)
Definition generation_succeeds (fg bg : file_storage) (w : world)
    (final_filename : string) (w5 : world) : Prop :=
  exists timestamp upload_response w2 comfyui_filename queue_response w4 prompt_id,
    asset_stage fg bg w timestamp upload_response w2 /\
    has_field "name" upload_response comfyui_filename /\
    job_stage comfyui_filename timestamp w2 queue_response w4 /\
    has_field "prompt_id" queue_response prompt_id /\
    get_final_image_path_from_websocket E prompt_id (uuid4 E) w4
      = (Ret (Some final_filename), w5).

End Stages.

(** * Runs on the mocked service *)

(** Frames that are not waited for by job-1. *)
Definition other_frames : list ws_event :=
  [Recv (FBinary [Byte.x00]);
   Recv (FText (Some (Mock.progress "job-1")));
   Recv (FText (Some (Mock.executed "job-2" [Mock.descriptor "other.png"])))].

(** The watcher of job-1. *)
Definition run_watcher (frames : list ws_event) (view : option bytes)
  : outcome (option string) * world :=
  get_final_image_path_from_websocket
    (Mock.env (Mock.watching frames view)) (JStr "job-1") "c0ffee" Mock.world0.

(** The two uploads of [Mock.request0]. *)
Definition person : file_storage := FileStorage "person.png" [Byte.x01].
Definition beach : file_storage := FileStorage "beach.png" [Byte.x01; Byte.x02].

(** An environment for the compositor, which asks it for nothing but the
    resampling and the blending. *)
Definition any_env : environment Z :=
  Mock.env (Mock.watching [] None).

(** Whether the rounding of this file and [SpecFloat] give the same height. *)
Definition heights_agree (W w h : Z) : bool :=
  match new_foreground_size W w h, b64_scaled_height w h W with
  | Ok (_, n), Some n' => Z.eqb n n'
  | _, _ => false
  end.

(** The sizes 1 to [n]. *)
Definition sizes_upto (n : nat) : list Z := map Z.of_nat (seq 1 n).

(** * Tactics *)

(** Unfold the monad. *)
Ltac mred :=
  unfold try_finally, try_except, bind, lift, ret, raise, block, log in *;
  simpl in *.

(** The stages of a run on the mocked service are found by running it. *)
Ltac run_stages :=
  lazymatch goal with
  | |- generation_succeeds _ _ _ _ _ _ =>
      do 7 eexists; split; [run_stages |]; split; [run_stages |];
      split; [run_stages |]; split; [run_stages | vm_compute; reflexivity]
  | |- asset_stage _ _ _ _ _ _ _ => do 3 eexists; split; vm_compute; reflexivity
  | |- job_stage _ _ _ _ _ _ => do 2 eexists; split; vm_compute; reflexivity
  | |- has_field _ _ _ => eexists; split; vm_compute; reflexivity
  end.

(** * What is sent and written *)

Section Sessions.

Context {P : Type} (E : environment P).

(** The commands of one complete FTP session of the publisher, in order. *)
Definition ftp_session (file_path name : string) : list event :=
  [EFtpLogin (env_str (FTP_HOST E));
   EFtpCwd (env_str (FTP_TARGET_DIR E));
   EFileRead file_path;
   EFtpStor ("STOR " ++ name);
   EFtpQuit].


End Sessions.

(** * The job descriptor *)

(** [prompt_workflow[node]['inputs'][key]]. *)
Definition node_input (prompt_workflow : json) (node key : string) : res json :=
  get node_obj <- getitem prompt_workflow node;
  get inputs <- getitem node_obj "inputs";
  getitem inputs key.

Section Reaching.

Context {P : Type} (E : environment P).

(** The request gets as far as the watcher: the composite is saved and
    uploaded, the job is submitted, and the answers carry their fields. *)
Definition reaches_watcher (fg bg : file_storage) (w : world)
    (prompt_id : json) (w4 : world) : Prop :=
  exists timestamp upload_response w2 comfyui_filename queue_response,
    asset_stage E fg bg w timestamp upload_response w2 /\
    has_field "name" upload_response comfyui_filename /\
    job_stage E comfyui_filename timestamp w2 queue_response w4 /\
    has_field "prompt_id" queue_response prompt_id.

End Reaching.

(** * More runs on the mocked service *)

(** The mocked service when every stage succeeds. *)
Definition happy : environment Z :=
  Mock.env (Mock.Scenario Mock.uploaded Mock.queued (Mock.completes "out.png")
                          (Some Mock.image_bytes) Mock.host None Mock.base_url).

(** The mocked service with, besides, the answer to the connection, the
    job template and the clock varying. *)
Definition vary (s : Mock.scenario) (refusal : option exc) (template : json)
    (stamp : string) : environment Z :=
  {| FTP_HOST := Mock.sc_host s;
     FTP_USER := Some "user";
     FTP_PASS := Some "secret";
     FTP_TARGET_DIR := Some "/public";
     BASE_PUBLIC_URL := Mock.sc_base s;
     now_timestamp := stamp;
     uuid4 := "c0ffee";
     can_write := fun _ => true;
     post_prompt := fun _ _ => Mock.sc_queue s;
     post_upload_image := fun _ _ => Mock.sc_upload s;
     get_view := fun _ _ _ => Mock.sc_view s;
     ws_create_connection := fun _ => refusal;
     ws_frames := fun _ => Mock.sc_frames s;
     ftp_login := fun _ _ _ => None;
     ftp_cwd := fun _ => None;
     ftp_storbinary := fun _ _ => Mock.sc_ftp_failure s;
     ftp_quit := None;
     json_load := fun _ => Ok template;
     image_open := Mock.decode;
     remove_background := fun im => Ok im;
     resample := fun im w h => repeat 7 (Z.to_nat (w * h));
     paste_accepts := fun _ _ => true;
     blend := fun p _ => p;
     png_encode := fun _ => Ok Mock.image_bytes |}.

Definition refused_connection : exc :=
  Exc "ConnectionRefusedError" "[Errno 111] Connection refused".

(** A WebSocket that refuses the connection. *)
Definition refusing_socket : environment Z :=
  vary (Mock.watching [] None) (Some refused_connection) Mock.workflow
       "20240101_120000000000".

(** A job template without the node "16". *)
Definition bad_template : environment Z :=
  vary (Mock.watching [] None) None
       (JDict [("35", JDict [("inputs", JDict [])])]) "20240101_120000000000".

(** The same service one microsecond later. *)
Definition later : environment Z :=
  vary (Mock.watching [] None) None Mock.workflow "20240101_120000000001".

(** The stages of a run up to the watcher are found by running it. *)
Ltac run_to_watcher :=
  do 5 eexists; split; [run_stages |]; split; [run_stages |];
  split; [run_stages | run_stages].

(** * Properties *)

(** ** The completion watcher *)

Section Watcher.

Context {P : Type} (E : environment P).

Lemma on_frame_unawaited prompt_id out w :
  unawaited prompt_id out -> on_frame E prompt_id out w = (Ret None, w).
Proof.
  intros [b | message ty Hty Hne | message ty pid Hty Heq Hpid Hne].
  - reflexivity.
  - unfold on_frame. mred. rewrite Hty. simpl. rewrite Hne. reflexivity.
  - unfold on_frame, embedded_job_id, res_bind in *. mred.
    rewrite Hty. simpl. rewrite Heq.
    destruct (getitem message "data") as [data | e]; [| discriminate].
    simpl. rewrite Hpid. simpl. rewrite Hne. reflexivity.
Qed.


(** A frame leaves the connections alone, only adds to the log, and never
    blocks. *)
Lemma on_frame_frame prompt_id out w r w' :
  on_frame E prompt_id out w = (r, w') ->
  sockets w' = sockets w /\ (exists t, trace w' = (trace w ++ t)%list) /\ r <> Block.
Proof.
  unfold on_frame, get_image_from_comfyui, write_file. mred. intros H.
  repeat (case_match; simplify_eq/=);
    (split; [reflexivity | split; [| discriminate]]);
    try (exists []; symmetry; apply app_nil_r);
    try (rewrite <- app_assoc; eexists; reflexivity);
    eexists; reflexivity.
Qed.

Lemma received_0 w : received 0 w = w.
Proof. unfold received. simpl. rewrite app_nil_r. by destruct w. Qed.

Lemma received_S n w :
  received n (World (fs w) (sockets w) (trace w ++ [EWsRecv])) = received (S n) w.
Proof. unfold received. simpl. by rewrite <- app_assoc. Qed.

(** One turn of the loop. *)
Lemma receive_loop_cons prompt_id out inbox w :
  receive_loop E prompt_id (Recv out :: inbox) w =
  match on_frame E prompt_id out (received 1 w) with
  | (Ret (Some result), w') => (Ret result, w')
  | (Ret None, w') => receive_loop E prompt_id inbox w'
  | (Raise e, w') => (Raise e, w')
  | (Block, w') => (Block, w')
  end.
Proof.
  simpl. unfold ws_recv. mred. unfold received. simpl.
  by destruct (on_frame E prompt_id out _) as [[[result |] | e |] w'].
Qed.

(** The frames that are not waited for are consumed one by one. *)
Lemma receive_loop_skip prompt_id before rest w :
  Forall (delivers (unawaited prompt_id)) before ->
  receive_loop E prompt_id (before ++ rest) w =
  receive_loop E prompt_id rest (received (length before) w).
Proof.
  intros H. revert w. induction H as [| ev inbox (out & -> & Hout) _ IH]; intros w.
  - by rewrite received_0.
  - simpl. unfold ws_recv. mred.
    rewrite (on_frame_unawaited _ _ _ Hout). rewrite IH. by rewrite received_S.
Qed.

Lemma receive_loop_unawaited prompt_id inbox w :
  Forall (delivers (unawaited prompt_id)) inbox ->
  receive_loop E prompt_id inbox w = (Block, received (length inbox) w).
Proof.
  intros H. rewrite <- (app_nil_r inbox) at 1.
  by rewrite (receive_loop_skip _ _ [] _ H).
Qed.

Lemma receive_loop_sockets prompt_id inbox w r w' :
  receive_loop E prompt_id inbox w = (r, w') -> sockets w' = sockets w.
Proof.
  revert w. induction inbox as [| ev inbox IH]; intros w H; simpl in H.
  - unfold block in H. by inversion H.
  - unfold ws_recv in H. mred. destruct ev as [out | e]; simpl in H.
    + destruct (on_frame E prompt_id out _) as [[[result |] | e |] w1] eqn:Hf;
        apply on_frame_frame in Hf as (Hs & _ & Hb); simpl in *.
      * inversion H; subst. exact Hs.
      * apply IH in H. congruence.
      * inversion H; subst. exact Hs.
      * by destruct Hb.
    + by inversion H.
Qed.


Lemma watcher_connected prompt_id client_id w :
  ws_create_connection E (ws_url client_id) = None ->
  get_final_image_path_from_websocket E prompt_id client_id w =
  try_finally (receive_loop E prompt_id (ws_frames E (ws_url client_id))) ws_close
              (connected (ws_url client_id) w).
Proof.
  intros H. unfold get_final_image_path_from_websocket, create_connection, bind.
  by rewrite H.
Qed.


Lemma on_frame_no_images prompt_id message images w :
  awaited prompt_id message ->
  output_images message = Ok images ->
  truthy images = false ->
  on_frame E prompt_id (FText (Some message)) w = (Ret (Some None), w).
Proof.
  intros (ty & pid & Hty & Hex & Hpid & Hjob) Himages Hempty.
  unfold embedded_job_id, output_images, res_bind in *.
  destruct (getitem message "data") as [data | e] eqn:Hdata; [| discriminate].
  destruct (getitem data "output") as [output | e] eqn:Hout; [| discriminate].
  unfold on_frame. mred. rewrite Hty. simpl. rewrite Hex, Hdata. simpl.
  rewrite Hpid. simpl. rewrite Hjob, Hout. simpl. rewrite Himages. simpl.
  by rewrite Hempty.
Qed.

Lemma on_frame_nothing_fetched prompt_id message filename subfolder folder_type w :
  awaited prompt_id message ->
  first_image message filename subfolder folder_type ->
  nothing (get_view E filename subfolder folder_type) ->
  on_frame E prompt_id (FText (Some message)) w =
  (Ret None, World (fs w) (sockets w)
                   (trace w ++ [EHttpGetView filename subfolder folder_type])).
Proof.
  intros (ty & pid & Hty & Hex & Hpid & Hjob).
  intros (images & first & Himages & Htruthy & Hfirst & Hf & Hs & Ht) Hnothing.
  unfold embedded_job_id, output_images, res_bind in *.
  destruct (getitem message "data") as [data | e] eqn:Hdata; [| discriminate].
  destruct (getitem data "output") as [output | e] eqn:Hout; [| discriminate].
  unfold on_frame, get_image_from_comfyui. mred.
  rewrite Hty. simpl. rewrite Hex, Hdata. simpl.
  rewrite Hpid. simpl. rewrite Hjob, Hout. simpl. rewrite Himages. simpl.
  rewrite Htruthy, Hfirst. simpl. rewrite Hf. simpl. rewrite Hs. simpl.
  rewrite Ht. simpl.
  by destruct Hnothing as [-> | ->].
Qed.

(** C3: when the awaited "executed" event arrives with an empty list of
    output images, the watcher returns [None]: it does not raise, it closes
    its connection and writes no file. *)
Theorem empty_output_returns_none prompt_id client_id w before message after :
  ws_create_connection E (ws_url client_id) = None ->
  ws_frames E (ws_url client_id) = (before ++ Recv (FText (Some message)) :: after)%list ->
  Forall (delivers (unawaited prompt_id)) before ->
  awaited prompt_id message ->
  output_images message = Ok (JList []) ->
  exists w',
    get_final_image_path_from_websocket E prompt_id client_id w = (Ret None, w') /\
    sockets w' = sockets w /\ fs w' = fs w.
Proof.
  intros Hconn Hframes Hbefore Hmsg Himages.
  rewrite (watcher_connected _ _ _ Hconn), Hframes. unfold try_finally.
  rewrite (receive_loop_skip _ _ _ _ Hbefore), receive_loop_cons.
  rewrite (on_frame_no_images _ _ _ _ Hmsg Himages eq_refl).
  eexists. split; [reflexivity |]. split; reflexivity.
Qed.

(** C10: when the awaited "executed" event names an image but [/view]
    gives nothing for it, the body of the loop neither returns nor raises:
    it falls through to the next [ws.recv()]; if no other awaited event
    follows, the watcher stays blocked with its connection open and no file
    written. *)
Theorem failed_fetch_leaves_the_watcher_blocked
    prompt_id client_id w before message after filename subfolder folder_type :
  ws_create_connection E (ws_url client_id) = None ->
  ws_frames E (ws_url client_id) = (before ++ Recv (FText (Some message)) :: after)%list ->
  Forall (delivers (unawaited prompt_id)) before ->
  Forall (delivers (unawaited prompt_id)) after ->
  awaited prompt_id message ->
  first_image message filename subfolder folder_type ->
  nothing (get_view E filename subfolder folder_type) ->
  (forall w1, exists w2,
      on_frame E prompt_id (FText (Some message)) w1 = (Ret None, w2)) /\
  exists w',
    get_final_image_path_from_websocket E prompt_id client_id w = (Block, w') /\
    sockets w' = S (sockets w) /\ fs w' = fs w.
Proof.
  intros Hconn Hframes Hbefore Hafter Hmsg Hfirst Hnothing. split.
  - intros w1. eexists. by apply on_frame_nothing_fetched with (1 := Hmsg) (2 := Hfirst).
  - rewrite (watcher_connected _ _ _ Hconn), Hframes. unfold try_finally.
    rewrite (receive_loop_skip _ _ _ _ Hbefore), receive_loop_cons.
    rewrite (on_frame_nothing_fetched _ _ _ _ _ _ Hmsg Hfirst Hnothing).
    rewrite (receive_loop_unawaited _ _ _ Hafter).
    eexists. split; [reflexivity |]. split; reflexivity.
Qed.

(** C4: once the connection is open, every way out of the watcher (a
    file name returned, [None] returned, an exception) leaves it closed:
    the count of open connections is what it was before the call and the
    last thing done is [ws.close()].  Only while the watcher still waits
    is the connection open. *)
Theorem connection_closed_on_every_exit prompt_id client_id w r w' :
  ws_create_connection E (ws_url client_id) = None ->
  get_final_image_path_from_websocket E prompt_id client_id w = (r, w') ->
  match r with
  | Block => sockets w' = S (sockets w)
  | _ => sockets w' = sockets w /\ last (trace w') = Some EWsClose
  end.
Proof.
  intros Hconn. rewrite (watcher_connected _ _ _ Hconn). unfold try_finally.
  destruct (receive_loop E prompt_id _ _) as [[a | e |] w1] eqn:Hloop;
    apply receive_loop_sockets in Hloop; simpl; intros H; inversion H; subst;
    simpl; rewrite ?Hloop; simpl; rewrite ?last_snoc; auto.
Qed.

(** A text frame that does not decode, or an event without a type, is not
    skipped: the exception leaves the loop. *)
Lemma malformed_frame_raises prompt_id w :
  on_frame E prompt_id (FText None) w = (Raise JSONDecodeError, w) /\
  on_frame E prompt_id (FText (Some (JDict []))) w = (Raise (KeyError "type"), w).
Proof. split; reflexivity. Qed.

(** Without a connection there is nothing to close. *)
Lemma connection_refused prompt_id client_id w e :
  ws_create_connection E (ws_url client_id) = Some e ->
  get_final_image_path_from_websocket E prompt_id client_id w = (Raise e, w).
Proof.
  intros H. unfold get_final_image_path_from_websocket, create_connection, bind.
  by rewrite H.
Qed.

End Watcher.

(** The watcher on the mocked service. *)


Lemma other_frames_unawaited :
  Forall (delivers (unawaited (JStr "job-1"))) other_frames.
Proof.
  constructor; [| constructor; [| constructor; [| constructor]]];
    eexists; (split; [reflexivity |]).
  - apply unawaited_not_text.
  - apply (unawaited_other_type _ _ (JStr "progress")); reflexivity.
  - apply (unawaited_other_job _ _ (JStr "executed") (JStr "job-2")); reflexivity.
Qed.

Lemma executed_awaited images :
  awaited (JStr "job-1") (Mock.executed "job-1" images).
Proof. by exists (JStr "executed"), (JStr "job-1"). Qed.


Lemma empty_output_returns_none_witness :
  exists w',
    get_final_image_path_from_websocket
      (Mock.env (Mock.watching
                   (other_frames ++ [Recv (FText (Some (Mock.executed "job-1" [])))])
                   None))
      (JStr "job-1") "c0ffee" Mock.world0
    = (Ret None, w') /\ sockets w' = 0%nat /\ fs w' = fs Mock.world0.
Proof.
  apply (empty_output_returns_none _ (JStr "job-1") "c0ffee" Mock.world0
           other_frames (Mock.executed "job-1" []) []).
  - reflexivity.
  - reflexivity.
  - apply other_frames_unawaited.
  - apply executed_awaited.
  - reflexivity.
Defined.

Lemma failed_fetch_leaves_the_watcher_blocked_witness :
  exists w',
    get_final_image_path_from_websocket
      (Mock.env (Mock.watching (Mock.completes "out.png" ++ other_frames) None))
      (JStr "job-1") "c0ffee" Mock.world0
    = (Block, w') /\ sockets w' = 1%nat /\ fs w' = fs Mock.world0.
Proof.
  apply (failed_fetch_leaves_the_watcher_blocked _ (JStr "job-1") "c0ffee"
           Mock.world0 [] (Mock.executed "job-1" [Mock.descriptor "out.png"])
           other_frames (JStr "out.png") (JStr "") (JStr "output")).
  - reflexivity.
  - reflexivity.
  - constructor.
  - apply other_frames_unawaited.
  - apply executed_awaited.
  - exists (JList [Mock.descriptor "out.png"]), (Mock.descriptor "out.png").
    repeat split; reflexivity.
  - left. reflexivity.
Defined.


Lemma connection_closed_on_every_exit_witness :
  let named :=
    run_watcher (Mock.completes "out.png") (Some Mock.image_bytes) in
  let empty := run_watcher [Recv (FText (Some (Mock.executed "job-1" [])))] None in
  let broken := run_watcher [Recv (FText None)] None in
  (fst named = Ret (Some "out.png") /\
   sockets (snd named) = 0%nat /\ last (trace (snd named)) = Some EWsClose) /\
  (fst empty = Ret None /\
   sockets (snd empty) = 0%nat /\ last (trace (snd empty)) = Some EWsClose) /\
  (fst broken = Raise JSONDecodeError /\
   sockets (snd broken) = 0%nat /\ last (trace (snd broken)) = Some EWsClose).
Proof.
  intros named empty broken.
  pose proof (connection_closed_on_every_exit
                (Mock.env (Mock.watching (Mock.completes "out.png")
                                         (Some Mock.image_bytes)))
                (JStr "job-1") "c0ffee" Mock.world0
                (fst named) (snd named) eq_refl (surjective_pairing _)) as Hnamed.
  pose proof (connection_closed_on_every_exit
                (Mock.env (Mock.watching
                             [Recv (FText (Some (Mock.executed "job-1" [])))] None))
                (JStr "job-1") "c0ffee" Mock.world0
                (fst empty) (snd empty) eq_refl (surjective_pairing _)) as Hempty.
  pose proof (connection_closed_on_every_exit
                (Mock.env (Mock.watching [Recv (FText None)] None))
                (JStr "job-1") "c0ffee" Mock.world0
                (fst broken) (snd broken) eq_refl (surjective_pairing _)) as Hbroken.
  split; [| split].
  - split; [reflexivity | exact Hnamed].
  - split; [reflexivity | exact Hempty].
  - split; [reflexivity | exact Hbroken].
Defined.

(** ** The publisher *)

Section Publisher.

Context {P : Type} (E : environment P).

(** The transfer returns or raises; it never waits for a frame, and it
    leaves the local files as they are. *)
Lemma ftp_transfer_frame file_path name w r w' :
  ftp_transfer E file_path name w = (r, w') -> r <> Block /\ fs w' = fs w.
Proof.
  unfold ftp_transfer, ftp_connect, ftp_change_dir, read_file, ftp_store, ftp_close.
  mred. intros H.
  repeat (case_match; simplify_eq/=); split; done.
Qed.


(** C5: the publisher always returns a pair and never raises; when the
    host, the user, the password or the target directory is not configured
    it returns [False] with the message that says so and touches nothing (no
    command is sent, nothing is logged); otherwise an exception raised in
    the transfer is caught and comes back as [False] with [str(e)]. *)
Theorem publish_never_raises file_path name w :
  (exists ok message w',
      upload_final_image_to_ftp E file_path name w = (Ret (ok, message), w')) /\
  (ftp_configured E = false ->
   upload_final_image_to_ftp E file_path name w =
   (Ret (false, ftp_config_missing), w)) /\
  (ftp_configured E = true ->
   forall e w1,
     ftp_transfer E file_path name w = (Raise e, w1) ->
     upload_final_image_to_ftp E file_path name w = (Ret (false, exc_msg e), w1)).
Proof.
  unfold upload_final_image_to_ftp, try_except. split; [| split].
  - destruct (negb (ftp_configured E)); [by eexists _, _, _ |].
    destruct (ftp_transfer E file_path name w) as [[[ok message] | e |] w1] eqn:Ht.
    + by eexists _, _, _.
    + by eexists _, _, _.
    + apply ftp_transfer_frame in Ht as [Hb _]. by destruct Hb.
  - by intros ->.
  - intros Hc e w1 Ht. rewrite Hc. cbn [negb]. by rewrite Ht.
Qed.

End Publisher.

Lemma publish_never_raises_witness :
  let unconfigured :=
    Mock.env (Mock.Scenario Mock.uploaded Mock.queued [] None None None Mock.base_url) in
  let refusing :=
    Mock.env (Mock.Scenario Mock.uploaded Mock.queued [] None Mock.host
                            (Some Mock.refused) Mock.base_url) in
  let w := World {[ "final_images/out.png" := Mock.image_bytes ]} 0 [] in
  upload_final_image_to_ftp unconfigured "final_images/out.png" "out.png" w
    = (Ret (false, ftp_config_missing), w) /\
  exists w1,
    upload_final_image_to_ftp refusing "final_images/out.png" "out.png" w
    = (Ret (false, "550 Permission denied"), w1).
Proof.
  intros unconfigured refusing w. split.
  - destruct (publish_never_raises unconfigured "final_images/out.png" "out.png" w)
      as (_ & H & _).
    apply H. reflexivity.
  - destruct (publish_never_raises refusing "final_images/out.png" "out.png" w)
      as (_ & _ & H).
    eexists. apply (H eq_refl Mock.refused). reflexivity.
Defined.

(** ** Paths *)






(** ** The request handler *)

Section Handler.

Context {P : Type} (E : environment P).


Lemma lacks_has key r v :
  has_field key r v -> lacks key r = Ok false /\ getitem (response_of r) key = Ok v.
Proof.
  intros (d & -> & Hd). unfold lacks. destruct d as [| kv d]; [discriminate |].
  cbn [truthy negb contains res_bind response_of getitem]. by rewrite Hd.
Qed.

Lemma merge_images_valid req fg bg w :
  valid_request req fg bg ->
  merge_images E req w =
  try_except (pipeline E fg bg)
             (fun exception => ret (internal_error_response exception)) w.
Proof.
  intros (Hfg & Hbg & Hnf & Hnb). unfold merge_images. rewrite Hfg, Hbg.
  apply String.eqb_neq in Hnf, Hnb. by rewrite Hnf, Hnb.
Qed.

(** A file name returned by the watcher is not empty, and the file is in
    the directory of the final images. *)
Lemma on_frame_written prompt_id out w name w' :
  on_frame E prompt_id out w = (Ret (Some (Some name)), w') ->
  name <> "" /\
  names_directory (os_path_join FINAL_IMAGES_DIR name) = false /\
  exists content, fs w' !! os_path_join FINAL_IMAGES_DIR name = Some content.
Proof.
  unfold on_frame, get_image_from_comfyui, write_file, fspath. mred. intros H.
  repeat (case_match; simplify_eq/=).
  split; [| split].
  - intros ->. discriminate.
  - done.
  - eexists. apply lookup_insert_eq.
Qed.

Lemma receive_loop_written prompt_id inbox w name w' :
  receive_loop E prompt_id inbox w = (Ret (Some name), w') ->
  name <> "" /\
  names_directory (os_path_join FINAL_IMAGES_DIR name) = false /\
  exists content, fs w' !! os_path_join FINAL_IMAGES_DIR name = Some content.
Proof.
  revert w. induction inbox as [| [out | e] inbox IH]; intros w H.
  - discriminate.
  - rewrite receive_loop_cons in H.
    destruct (on_frame E prompt_id out _) as [[[[n |] |] | e |] w1] eqn:Hf;
      try discriminate.
    + inversion H; subst. by apply on_frame_written in Hf.
    + by apply IH in H.
  - simpl in H. unfold ws_recv in H. mred. discriminate.
Qed.

Lemma watcher_written prompt_id client_id w name w' :
  get_final_image_path_from_websocket E prompt_id client_id w
    = (Ret (Some name), w') ->
  name <> "" /\
  names_directory (os_path_join FINAL_IMAGES_DIR name) = false /\
  exists content, fs w' !! os_path_join FINAL_IMAGES_DIR name = Some content.
Proof.
  unfold get_final_image_path_from_websocket, create_connection, bind.
  destruct (ws_create_connection E _); [discriminate |].
  unfold try_finally.
  destruct (receive_loop E prompt_id _ _) as [[a | e |] w1] eqn:Hloop;
    simpl; intros H; inversion H; subst.
  by apply receive_loop_written in Hloop.
Qed.

(** When the generation stage succeeds, what is left of the request is
    the publish stage. *)
Lemma pipeline_generated fg bg w name w5 :
  generation_succeeds E fg bg w name w5 ->
  name <> "" /\ pipeline E fg bg w = publish_stage E (Some name) w5.
Proof.
  intros (timestamp & up & w2 & comfy & queue & w4 & prompt_id &
          Hasset & Hname & Hjob & Hid & Hwatch).
  destruct Hasset as (merged_filename & merged_path & w1 & Hcomposite & Hupload).
  destruct Hjob as (prompt_workflow & w3 & Hprepare & Hqueue).
  apply lacks_has in Hname as [Hn1 Hn2]. apply lacks_has in Hid as [Hi1 Hi2].
  split; [by apply watcher_written in Hwatch as [? _] |].
  unfold pipeline, bind. rewrite Hcomposite, Hupload. unfold lift at 1.
  rewrite Hn1. unfold ret at 1. unfold lift at 1. rewrite Hn2. unfold ret at 1.
  rewrite Hprepare, Hqueue. unfold lift at 1. rewrite Hi1. unfold ret at 1.
  unfold lift at 1. rewrite Hi2. unfold ret at 1. by rewrite Hwatch.
Qed.

Lemma publish_stage_run name w5 ok message w6 :
  name <> "" ->
  upload_final_image_to_ftp E (os_path_join FINAL_IMAGES_DIR name) name w5
    = (Ret (ok, message), w6) ->
  publish_stage E (Some name) w5 =
  (Ret (if ok then
          if negb (configured (BASE_PUBLIC_URL E)) then no_base_url_response
          else success_response (env_str (BASE_PUBLIC_URL E) ++ name)
        else ftp_failed_response name message), w6).
Proof.
  intros Hname Hpub. unfold publish_stage, bind.
  apply String.eqb_neq in Hname. rewrite Hname, Hpub.
  destruct ok; [| reflexivity]. by destruct (negb (configured _)).
Qed.

Lemma merge_images_generated req fg bg w name w5 ok message w6 :
  valid_request req fg bg ->
  generation_succeeds E fg bg w name w5 ->
  upload_final_image_to_ftp E (os_path_join FINAL_IMAGES_DIR name) name w5
    = (Ret (ok, message), w6) ->
  merge_images E req w =
  (Ret (if ok then
          if negb (configured (BASE_PUBLIC_URL E)) then no_base_url_response
          else success_response (env_str (BASE_PUBLIC_URL E) ++ name)
        else ftp_failed_response name message), w6).
Proof.
  intros Hreq Hgen Hpub. rewrite (merge_images_valid _ _ _ _ Hreq).
  apply pipeline_generated in Hgen as [Hname Hpipe].
  unfold try_except. by rewrite Hpipe, (publish_stage_run _ _ _ _ _ Hname Hpub).
Qed.

(** C2: when every stage succeeds (the composite is saved and uploaded,
    the job is submitted, the watcher returns a file name, the publisher
    returns [True]) and [BASE_PUBLIC_URL] is set, the answer is 200 with
    [final_image_url] the prefix followed by the file name; when the prefix
    is not set the answer is a 500 whose body is not that of a failed
    publish. *)
Theorem success_returns_public_url req fg bg w name w5 message w6 :
  valid_request req fg bg ->
  generation_succeeds E fg bg w name w5 ->
  upload_final_image_to_ftp E (os_path_join FINAL_IMAGES_DIR name) name w5
    = (Ret (true, message), w6) ->
  (forall base,
      BASE_PUBLIC_URL E = Some base -> base <> "" ->
      exists body,
        merge_images E req w = (Ret (body, 200), w6) /\
        getitem body "final_image_url" = Ok (JStr (base ++ name))) /\
  (configured (BASE_PUBLIC_URL E) = false ->
   exists body,
     merge_images E req w = (Ret (body, 500), w6) /\
     getitem body "error" = Ok (JStr "BASE_PUBLIC_URL is not set in .env file") /\
     forall name' details, (body, 500) <> ftp_failed_response name' details).
Proof.
  intros Hreq Hgen Hpub.
  rewrite (merge_images_generated _ _ _ _ _ _ _ _ _ Hreq Hgen Hpub). split.
  - intros base Hbase Hne. unfold configured. rewrite Hbase.
    apply String.eqb_neq in Hne. rewrite Hne. simpl. eexists. split; reflexivity.
  - intros ->. simpl. eexists. split; [reflexivity |]. split; [reflexivity |].
    intros name' details. discriminate.
Qed.




End Handler.

(** The handler on the mocked service. *)


Lemma request0_valid : valid_request Mock.request0 person beach.
Proof. repeat split; discriminate. Qed.


Lemma success_returns_public_url_witness :
  let E := Mock.env (Mock.Scenario Mock.uploaded Mock.queued (Mock.completes "out.png")
                                   (Some Mock.image_bytes) Mock.host None
                                   Mock.base_url) in
  exists body w6,
    merge_images E Mock.request0 Mock.world0 = (Ret (body, 200), w6) /\
    getitem body "final_image_url" = Ok (JStr "https://example.org/img/out.png").
Proof.
  intros E.
  edestruct (success_returns_public_url E Mock.request0 person beach Mock.world0
               "out.png") as [H _].
  - exact request0_valid.
  - run_stages.
  - vm_compute. reflexivity.
  - destruct (H "https://example.org/img/" eq_refl) as (body & Hrun & Hurl);
      [discriminate |].
    exists body. eexists. split; [exact Hrun | exact Hurl].
Defined.





(** ** Rounding to binary64 *)

Section Rounding.

Local Open Scope Q_scope.

Lemma pow2_pos e : 0 < pow2 e.
Proof. apply Qpower_0_lt. reflexivity. Qed.

Lemma pow2_add a b : pow2 (a + b) == pow2 a * pow2 b.
Proof. apply Qpower_plus. discriminate. Qed.

Lemma pow2_Z n : (0 <= n)%Z -> pow2 n == inject_Z (2 ^ n).
Proof. intros H. symmetry. apply (Zpower_Qpower 2 n H). Qed.

Lemma pow2_lt_inv a b : pow2 a < pow2 b -> (a < b)%Z.
Proof. intros H. apply (Qpower_lt_compat_l_inv 2 a b H). reflexivity. Qed.

Lemma pow2_le a b : (a <= b)%Z -> pow2 a <= pow2 b.
Proof. intros H. apply Qpower_le_compat_l; [exact H | discriminate]. Qed.

Lemma Z_log2_bounds n :
  (0 < n)%Z -> pow2 (Z.log2 n) <= inject_Z n /\ inject_Z n < pow2 (Z.log2 n + 1).
Proof.
  intros H. pose proof (Z.log2_spec n H) as [Hlo Hhi].
  pose proof (Z.log2_nonneg n) as Hnn.
  rewrite !pow2_Z by lia. split.
  - rewrite <- Zle_Qle. exact Hlo.
  - rewrite <- Zlt_Qlt. unfold Z.succ in Hhi. exact Hhi.
Qed.

Lemma ilog2_spec q : 0 < q -> pow2 (ilog2 q) <= q /\ q < pow2 (ilog2 q + 1).
Proof.
  intros Hq. unfold ilog2.
  set (a := Z.log2 (Qnum q)). set (b := Z.log2 (Zpos (Qden q))).
  assert (0 < Qnum q)%Z as Hn.
  { destruct q as [n d]. unfold Qlt in Hq. simpl in *. lia. }
  pose proof (Z_log2_bounds (Qnum q) Hn) as [Hnlo Hnhi].
  pose proof (Z_log2_bounds (Zpos (Qden q)) eq_refl) as [Hdlo Hdhi].
  fold a in Hnlo, Hnhi. fold b in Hdlo, Hdhi.
  assert (q * inject_Z (Zpos (Qden q)) == inject_Z (Qnum q)) as Hqd.
  { destruct q as [n d]. unfold Qeq, Qmult, inject_Z. simpl. lia. }
  pose proof (pow2_pos a) as Ha. pose proof (pow2_pos b) as Hb.
  pose proof (pow2_pos (a - b)) as Hab.
  assert (pow2 (a - b) * pow2 b == pow2 a) as E1.
  { rewrite <- pow2_add. by replace (a - b + b)%Z with a by lia. }
  assert (pow2 (a + 1) == 2 * pow2 a) as E2.
  { rewrite pow2_add. change (pow2 1) with 2. ring. }
  assert (pow2 (b + 1) == 2 * pow2 b) as E3.
  { rewrite pow2_add. change (pow2 1) with 2. ring. }
  assert (pow2 (a - b + 1) == 2 * pow2 (a - b)) as E4.
  { rewrite pow2_add. change (pow2 1) with 2. ring. }
  assert (2 * pow2 (a - b - 1) == pow2 (a - b)) as E5.
  { replace (a - b)%Z with (a - b - 1 + 1)%Z at 2 by lia.
    rewrite pow2_add. change (pow2 1) with 2. ring. }
  pose proof (pow2_pos (a - b - 1)) as Hab1.
  destruct (Qle_bool (pow2 (a - b)) q) eqn:Hcmp.
  - apply Qle_bool_iff in Hcmp. split; [exact Hcmp |].
    rewrite E4. nra.
  - assert (q < pow2 (a - b)) as Hlt.
    { apply Qnot_le_lt. intros Hle. apply Qle_bool_iff in Hle. congruence. }
    replace (a - b - 1 + 1)%Z with (a - b)%Z by lia. split; [| exact Hlt].
    nra.
Qed.

Lemma round_half_even_spec q :
  inject_Z (round_half_even q) - q <= 1 # 2 /\ q - inject_Z (round_half_even q) <= 1 # 2.
Proof.
  unfold round_half_even.
  pose proof (Qfloor_le q) as Hlo. pose proof (Qlt_floor q) as Hhi.
  rewrite inject_Z_plus in Hhi. change (inject_Z 1) with 1 in Hhi.
  destruct (Qcompare_spec (q - inject_Z (Qfloor q)) (1 # 2)) as [He | Hl | Hg];
    [destruct (Z.even (Qfloor q)) | |];
    rewrite ?inject_Z_plus; change (inject_Z 1) with 1; lra.
Qed.

Lemma Qabs_positive q : 0 < q -> Qabs q = q.
Proof.
  destruct q as [n d]. unfold Qlt, Qabs. simpl. intros H.
  f_equal. apply Z.abs_eq. lia.
Qed.

(** Rounding a value of the normal range has a relative error of at most
    2^-53. *)
Lemma round_float_error q :
  pow2 (-1022) <= q ->
  q * (1 - pow2 (-53)) <= round_float q /\ round_float q <= q * (1 + pow2 (-53)).
Proof.
  intros Hq. pose proof (pow2_pos (-1022)) as Hmin.
  assert (0 < q) as Hpos by lra.
  unfold round_float. destruct (Qeq_bool q 0) eqn:Hz.
  { apply Qeq_bool_iff in Hz. lra. }
  rewrite Qred_correct. unfold float_exponent. rewrite (Qabs_positive q Hpos).
  pose proof (ilog2_spec q Hpos) as [Hlo Hhi].
  assert (-1022 <= ilog2 q)%Z as Hexp.
  { assert (pow2 (-1022) < pow2 (ilog2 q + 1)) as Hlt by lra.
    apply pow2_lt_inv in Hlt. lia. }
  rewrite Z.max_l by lia.
  set (e := (ilog2 q - 52)%Z). pose proof (pow2_pos e) as Hs.
  assert (pow2 (ilog2 q) == pow2 e * pow2 52) as He.
  { rewrite <- pow2_add. unfold e. by replace (ilog2 q - 52 + 52)%Z with (ilog2 q) by lia. }
  pose proof (round_half_even_spec (q / pow2 e)) as [Hup Hdown].
  set (m := inject_Z (round_half_even (q / pow2 e))) in *.
  assert (q / pow2 e * pow2 e == q) as Hdiv.
  { field. lra. }
  change (pow2 (-53)) with (1 # 9007199254740992).
  change (pow2 52) with (4503599627370496 # 1) in He.
  set (s := pow2 e) in *. set (t := q / s) in *.
  rewrite He in Hlo. rewrite <- Hdiv. nra.
Qed.

Lemma no_overflow q : 0 < q -> q < pow2 60 -> float_overflows q = false.
Proof.
  intros Hpos Hlt. unfold float_overflows. rewrite (Qabs_positive q Hpos).
  destruct (Qle_bool (pow2 1024) q) eqn:Hcmp; [| reflexivity].
  apply Qle_bool_iff in Hcmp.
  pose proof (pow2_le 60 1024 ltac:(lia)). lra.
Qed.

Lemma floor_between r k :
  inject_Z k <= r -> r < inject_Z (k + 1) -> Qfloor r = k.
Proof.
  intros Hlo Hhi.
  pose proof (Qfloor_le r) as H1. pose proof (Qlt_floor r) as H2.
  assert (inject_Z (Qfloor r) < inject_Z (k + 1)) as Ha by lra.
  assert (inject_Z k < inject_Z (Qfloor r + 1)) as Hb by lra.
  rewrite <- Zlt_Qlt in Ha, Hb. lia.
Qed.

Lemma trunc_floor r : 0 <= r -> Z.quot (Qnum r) (Zpos (Qden r)) = Qfloor r.
Proof.
  destruct r as [n d]. unfold Qle. simpl. intros H.
  apply Z.quot_div_nonneg; lia.
Qed.

(** The height the handler computes, against the exact quotient. *)
Lemma new_foreground_size_bounds (W w h : Z) :
  (0 < w < 2 ^ 25)%Z -> (0 < h < 2 ^ 25)%Z -> (0 < W < 2 ^ 25)%Z ->
  exists n,
    new_foreground_size W w h = Ok (W, n) /\
    (h * W / w - 1 <= n <= h * W / w)%Z /\
    ((h * W) mod w <> 0 -> n = h * W / w)%Z.
Proof.
  intros Hw Hh Hbw.
  unfold new_foreground_size, py_truediv, py_mul_int_float, float_of_int, res_bind.
  assert (Z.eqb w 0 = false) as -> by (apply Z.eqb_neq; lia).
  assert (1 <= inject_Z w /\ inject_Z w <= 33554431) as Hwq.
  { split; [change 1 with (inject_Z 1) | change 33554431 with (inject_Z 33554431)];
      rewrite <- Zle_Qle; lia. }
  assert (1 <= inject_Z h /\ inject_Z h <= 33554431) as Hhq.
  { split; [change 1 with (inject_Z 1) | change 33554431 with (inject_Z 33554431)];
      rewrite <- Zle_Qle; lia. }
  assert (1 <= inject_Z W /\ inject_Z W <= 33554431) as HWq.
  { split; [change 1 with (inject_Z 1) | change 33554431 with (inject_Z 33554431)];
      rewrite <- Zle_Qle; lia. }
  set (q1 := inject_Z h / inject_Z w).
  assert (q1 * inject_Z w == inject_Z h) as Hq1 by (unfold q1; field; lra).
  pose proof (pow2_le (-1022) (-25) ltac:(lia)) as Hmin25.
  pose proof (pow2_le (-1022) (-27) ltac:(lia)) as Hmin27.
  pose proof (pow2_le (-1022) 0 ltac:(lia)) as Hmin0.
  change (pow2 (-25)) with (1 # 33554432) in Hmin25.
  change (pow2 (-27)) with (1 # 134217728) in Hmin27.
  change (pow2 0) with 1 in Hmin0.
  assert (1 # 33554432 <= q1 /\ q1 <= 33554431) as Hq1b.
  { unfold q1. split.
    - apply Qle_shift_div_l; lra.
    - apply Qle_shift_div_r; lra. }
  pose proof (round_float_error q1 ltac:(lra)) as [Hxlo Hxhi].
  pose proof (round_float_error (inject_Z W) ltac:(lra)) as [Hylo Hyhi].
  set (x := round_float q1) in *. set (y := round_float (inject_Z W)) in *.
  change (pow2 (-53)) with (1 # 9007199254740992) in *.
  assert (pow2 60 == 1152921504606846976) as H60 by reflexivity.
  rewrite (no_overflow x) by (rewrite ?H60; nra).
  rewrite (no_overflow y) by (rewrite ?H60; nra).
  assert (1 # 134217728 <= y * x) as Hp by nra.
  pose proof (round_float_error (y * x) ltac:(lra)) as [Hrlo Hrhi].
  change (pow2 (-53)) with (1 # 9007199254740992) in *.
  set (r := round_float (y * x)) in *.
  assert (y * x <= 2251799813685248) as Hpmax by nra.
  rewrite (no_overflow r) by (rewrite ?H60; nra).
  unfold py_int. rewrite (trunc_floor r) by nra.
  eexists. split; [reflexivity |].
  (* the product against the exact quotient *)
  set (d := 1 # 9007199254740992) in *.
  set (HW := inject_Z h * inject_Z W).
  assert (1 <= HW /\ HW <= 1125899839733761) as HhW by (unfold HW; nra).
  assert (inject_Z W * (1 - d) * (q1 * (1 - d)) <= y * x) as Hplo.
  { apply Qmult_le_compat_nonneg; unfold d in *; split; lra. }
  assert (y * x <= inject_Z W * (1 + d) * (q1 * (1 + d))) as Hphi.
  { apply Qmult_le_compat_nonneg; unfold d in *; split; lra. }
  assert (inject_Z W * (1 - d) * (q1 * (1 - d)) * (1 - d) * inject_Z w
          <= r * inject_Z w) as Hlo.
  { apply Qmult_le_compat_r; [| lra].
    apply Qle_trans with (y * x * (1 - d)); [| exact Hrlo].
    apply Qmult_le_compat_r; [exact Hplo | unfold d; lra]. }
  assert (r * inject_Z w
          <= inject_Z W * (1 + d) * (q1 * (1 + d)) * (1 + d) * inject_Z w) as Hhi.
  { apply Qmult_le_compat_r; [| lra].
    apply Qle_trans with (y * x * (1 + d)); [exact Hrhi |].
    apply Qmult_le_compat_r; [exact Hphi | unfold d; lra]. }
  assert (inject_Z W * (1 - d) * (q1 * (1 - d)) * (1 - d) * inject_Z w
          == (1 - d) * (1 - d) * (1 - d) * HW) as Elo.
  { unfold HW. rewrite <- Hq1. ring. }
  assert (inject_Z W * (1 + d) * (q1 * (1 + d)) * (1 + d) * inject_Z w
          == (1 + d) * (1 + d) * (1 + d) * HW) as Ehi.
  { unfold HW. rewrite <- Hq1. ring. }
  rewrite Elo in Hlo. rewrite Ehi in Hhi.
  assert (HW - 1 < r * inject_Z w) as Hlow by (unfold d in *; lra).
  assert (r * inject_Z w < HW + 1) as Hupp by (unfold d in *; lra).
  unfold HW in Hlow, Hupp.
  clearbody r. clear - Hw Hh Hbw Hwq Hlow Hupp.
  pose proof (Z.div_mod (h * W) w ltac:(lia)) as Hdm.
  pose proof (Z.mod_pos_bound (h * W) w ltac:(lia)) as Hm.
  set (k := (h * W / w)%Z) in *. set (m := ((h * W) mod w)%Z) in *.
  assert (inject_Z h * inject_Z W == inject_Z w * inject_Z k + inject_Z m) as HQ.
  { rewrite <- !inject_Z_mult, <- inject_Z_plus. by rewrite Hdm. }
  assert (0 <= inject_Z m /\ inject_Z m + 1 <= inject_Z w) as Hmq.
  { split.
    - change 0 with (inject_Z 0). rewrite <- Zle_Qle. lia.
    - change 1 with (inject_Z 1). rewrite <- inject_Z_plus, <- Zle_Qle. lia. }
  assert (0 < inject_Z w) as Hwpos by lra.
  assert (r < inject_Z (k + 1)) as Hr1.
  { apply (Qmult_lt_r _ _ (inject_Z w) Hwpos).
    rewrite inject_Z_plus. change (inject_Z 1) with 1. lra. }
  assert (inject_Z (k - 1) < r) as Hr2.
  { apply (Qmult_lt_r _ _ (inject_Z w) Hwpos).
    unfold Z.sub. rewrite inject_Z_plus, inject_Z_opp. change (inject_Z 1) with 1.
    lra. }
  split.
  - pose proof (Qfloor_le r) as H1. pose proof (Qlt_floor r) as H2.
    assert (inject_Z (Qfloor r) < inject_Z (k + 1)) as Ha by lra.
    assert (inject_Z (k - 1) < inject_Z (Qfloor r + 1)) as Hb.
    { rewrite inject_Z_plus in *. change (inject_Z 1) with 1 in *. lra. }
    rewrite <- Zlt_Qlt in Ha, Hb. lia.
  - intros Hne. apply floor_between; [| exact Hr1].
    assert (1 <= inject_Z m) as Hm1.
    { change 1 with (inject_Z 1). rewrite <- Zle_Qle. lia. }
    apply Qlt_le_weak. apply (Qmult_lt_r _ _ (inject_Z w) Hwpos). lra.
Qed.

End Rounding.


(** The rounding above and the Standard Library's [SpecFloat] give the same
    height on small sizes and on usual ones. *)
Lemma rounding_agrees_with_SpecFloat :
  forallb (fun W => forallb (fun w => forallb (heights_agree W w) (sizes_upto 12))
                            (sizes_upto 12))
          (sizes_upto 12) = true /\
  forallb (fun '(W, w, h) => heights_agree W w h)
          [(1920, 1080, 720); (100, 100, 58); (49, 49, 1); (640, 481, 363);
           (4096, 3000, 2001); (1024, 768, 1365); (333, 1000, 7)] = true.
Proof. split; vm_compute; reflexivity. Qed.

(** ** The compositor *)

Section Compositor.

Context {P : Type} (E : environment P).

Lemma image_resize_size (im : image P) sz out :
  image_resize E im sz = Ok out -> size out = sz.
Proof.
  unfold image_resize, size. destruct sz as [xsize ysize].
  destruct (Z.eqb (im_width im) xsize) eqn:Hx;
    destruct (Z.eqb (im_height im) ysize) eqn:Hy; simpl;
    try (destruct (Z.ltb xsize 1 || Z.ltb ysize 1); [discriminate |];
         intros H; inversion H; reflexivity).
  apply Z.eqb_eq in Hx, Hy. intros H. inversion H. subst. reflexivity.
Qed.

Lemma image_resize_runs (im : image P) xsize ysize :
  1 <= xsize -> 1 <= ysize -> exists out, image_resize E im (xsize, ysize) = Ok out.
Proof.
  intros Hx Hy. unfold image_resize.
  destruct (Z.eqb (im_width im) xsize && Z.eqb (im_height im) ysize); [by eexists |].
  assert (Z.ltb xsize 1 || Z.ltb ysize 1 = false) as ->.
  { apply orb_false_iff. split; apply Z.ltb_ge; lia. }
  by eexists.
Qed.

(** A paste changes pixels, never the size, wherever the box is. *)
Lemma image_paste_size (dst src : image P) box out :
  image_paste E dst src box = Ok out ->
  size out = size dst /\ length (im_data out) = length (im_data dst).
Proof.
  unfold image_paste. destruct (paste_accepts E dst src); [| discriminate].
  intros H. inversion H. simpl. split; [reflexivity | apply length_imap].
Qed.

(** C8, as the code has it: for sizes below 2^25 the handler computes a
    new size whose width is the width of the background and whose height is
    [fg_height * background_width / fg_width] truncated, or one less: the
    quotient is formed in binary64, and only when [fg_width] divides the
    product can the rounding fall below the integer.  A foreground that
    [resize] returns has that size, and [resize] returns when the height is
    at least 1. *)
Theorem scaled_foreground_size (background_image foreground_no_bg : image P) :
  0 < im_width foreground_no_bg < 2 ^ 25 ->
  0 < im_height foreground_no_bg < 2 ^ 25 ->
  0 < im_width background_image < 2 ^ 25 ->
  let exact :=
    im_height foreground_no_bg * im_width background_image
    / im_width foreground_no_bg in
  exists new_height,
    new_foreground_size (im_width background_image) (im_width foreground_no_bg)
                        (im_height foreground_no_bg)
      = Ok (im_width background_image, new_height) /\
    exact - 1 <= new_height <= exact /\
    ((im_height foreground_no_bg * im_width background_image)
       mod im_width foreground_no_bg <> 0 -> new_height = exact) /\
    (forall scaled,
        resized_foreground E background_image foreground_no_bg = Ok scaled ->
        im_width scaled = im_width background_image /\
        im_height scaled = new_height) /\
    (1 <= new_height ->
     exists scaled,
       resized_foreground E background_image foreground_no_bg = Ok scaled).
Proof.
  intros Hw Hh HW exact.
  destruct (new_foreground_size_bounds _ _ _ Hw Hh HW) as (n & Hsize & Hn & Hexact).
  exists n. split; [exact Hsize |]. split; [exact Hn |]. split; [exact Hexact |].
  unfold resized_foreground, size, res_bind. rewrite Hsize. split.
  - intros scaled Hscaled. apply image_resize_size in Hscaled.
    by inversion Hscaled.
  - intros Hpos. apply image_resize_runs; lia.
Qed.

(** C9: the image the handler saves has the size of the background, and as
    many pixels, whatever the paste offset is. *)
Theorem composite_keeps_background_size (background_image foreground_no_bg out : image P) :
  composite E background_image foreground_no_bg = Ok out ->
  size out = size background_image /\
  length (im_data out) = length (im_data background_image) /\
  (well_formed background_image -> well_formed out).
Proof.
  unfold composite, size, res_bind.
  destruct (new_foreground_size _ _ _) as [new_size | e]; [| discriminate].
  destruct (image_resize E foreground_no_bg new_size) as [resized | e];
    [| discriminate].
  intros H. apply image_paste_size in H as [Hsize Hlen].
  split; [exact Hsize |]. split; [exact Hlen |].
  unfold well_formed, size in *. inversion Hsize as [[Hw Hh]].
  rewrite Hw, Hh, Hlen. tauto.
Qed.

End Compositor.

(** The compositor on small images. *)


Lemma scaled_foreground_size_witness :
  let background_image := Image 4 2 [1; 2; 3; 4; 5; 6; 7; 8] in
  let foreground_no_bg := Image 2 3 [1; 2; 3; 4; 5; 6] in
  exists new_height scaled,
    new_foreground_size 4 2 3 = Ok (4, new_height) /\
    5 <= new_height <= 6 /\
    resized_foreground any_env background_image foreground_no_bg = Ok scaled /\
    im_width scaled = 4 /\ im_height scaled = new_height.
Proof.
  intros background_image foreground_no_bg.
  destruct (scaled_foreground_size any_env background_image foreground_no_bg
              (conj eq_refl eq_refl) (conj eq_refl eq_refl) (conj eq_refl eq_refl))
    as (n & Hsize & Hn & _ & Hscaled & Hruns).
  change (5 <= n <= 6) in Hn.
  destruct Hruns as (scaled & Hrun); [lia |].
  exists n, scaled. split; [exact Hsize |]. split; [exact Hn |].
  split; [exact Hrun |]. by apply Hscaled.
Defined.

(** C8, as the claim states it, fails for a foreground of 100 by 58 over a
    background 100 wide: [58 / 100] rounds to a float just below 0.58, the
    product with 100 to one just below 58, and [int] truncates it to 57,
    while 58 * 100 / 100 is 58.  (The foreground is then resized to 100 by
    57.) *)
Lemma scaled_height_is_not_the_truncated_quotient :
  let background_image := Image 100 1 (repeat 0 (Z.to_nat 100)) in
  let foreground_no_bg := Image 100 58 (repeat 0 (Z.to_nat 5800)) in
  new_foreground_size 100 100 58 = Ok (100, 57) /\
  b64_scaled_height 100 58 100 = Some 57 /\
  58 * 100 / 100 = 58 /\
  exists scaled,
    resized_foreground any_env background_image foreground_no_bg = Ok scaled /\
    im_width scaled = 100 /\ im_height scaled = 57 /\
    im_height scaled <> im_height foreground_no_bg * im_width background_image
                        / im_width foreground_no_bg.
Proof.
  intros background_image foreground_no_bg.
  split; [vm_compute; reflexivity |]. split; [vm_compute; reflexivity |].
  split; [reflexivity |]. eexists. split; [vm_compute; reflexivity |].
  split; [reflexivity |]. split; [reflexivity |]. vm_compute. discriminate.
Qed.

Lemma composite_keeps_background_size_witness :
  let background_image := Image 2 1 [10; 20] in
  let foreground_no_bg := Image 2 2 [1; 2; 3; 4] in
  paste_position background_image (2, 2) = (0, -1) /\
  composite any_env background_image foreground_no_bg = Ok (Image 2 1 [3; 4]) /\
  size (Image 2 1 [3; 4]) = size background_image.
Proof.
  intros background_image foreground_no_bg.
  split; [reflexivity |]. split; [vm_compute; reflexivity |].
  apply (composite_keeps_background_size any_env background_image foreground_no_bg).
  vm_compute. reflexivity.
Defined.

(** ** More on the publisher *)

Section PublisherRuns.

Context {P : Type} (E : environment P).

(** X16: the publisher never touches the local files or the sockets, and
    what it does is always a beginning of the session login, cwd, open,
    STOR, quit: nothing at all when the configuration is missing, and the
    whole session when it returns [True] (then with the success message, and
    the local file exists). *)
Theorem publisher_sends_a_prefix_of_the_session file_path name w ok message w' :
  upload_final_image_to_ftp E file_path name w = (Ret (ok, message), w') ->
  fs w' = fs w /\ sockets w' = sockets w /\
  exists k,
    trace w' = (trace w ++ take k (ftp_session E file_path name))%list /\
    (ftp_configured E = false -> k = 0%nat) /\
    (ok = true ->
     k = 5%nat /\ ftp_configured E = true /\ is_Some (fs w !! file_path) /\
     message = "File '" ++ name ++ "' uploaded to FTP successfully!").
Proof.
  unfold upload_final_image_to_ftp, ftp_transfer, ftp_connect, ftp_change_dir,
    read_file, ftp_store, ftp_close, ftp_session.
  mred. intros H.
  repeat (case_match; simplify_eq/=); (split; [reflexivity |]);
    (split; [reflexivity |]); rewrite <- ?app_assoc; simpl;
    try (exists 0%nat; split; [by rewrite app_nil_r |]; split; done).
  all: assert (ftp_configured E = false -> False) as Hconf
    by (intros Hc; rewrite Hc in *; discriminate).
  all: first
    [ exists 1%nat; split; [reflexivity |]; split; [by intros ?%Hconf | done]
    | exists 2%nat; split; [reflexivity |]; split; [by intros ?%Hconf | done]
    | exists 4%nat; split; [reflexivity |]; split; [by intros ?%Hconf | done]
    | exists 5%nat; split; [reflexivity |]; split; [by intros ?%Hconf |];
      first [done | intros _; destruct (ftp_configured E); [| done];
                    repeat split; by eexists] ].
Qed.


End PublisherRuns.

(** ** The generation client *)

Section Client.

Context {P : Type} (E : environment P).

(** X12: the upload of an asset whose file does not exist returns [None]
    without any request and without a change of state; otherwise the file is
    read and posted once, and the answer of the service is returned. *)
Theorem upload_image_reads_then_posts image_path name w :
  match fs w !! image_path with
  | None => upload_image_to_comfyui E image_path name w = (Ret None, w)
  | Some content =>
      upload_image_to_comfyui E image_path name w =
      (Ret (post_upload_image E name content),
       World (fs w) (sockets w)
             (trace w ++ [EFileRead image_path; EHttpPostUpload name]))
  end.
Proof.
  unfold upload_image_to_comfyui, read_file. mred.
  destruct (fs w !! image_path); simpl; [| reflexivity].
  by rewrite <- app_assoc.
Qed.

End Client.

(** ** More on the watcher *)

Section WatcherRuns.

Context {P : Type} (E : environment P).

(** One frame writes at most one file: the final image it returns. *)
Lemma on_frame_files prompt_id out w r w' :
  on_frame E prompt_id out w = (r, w') ->
  match r with
  | Ret (Some (Some name)) =>
      exists content,
        content <> [] /\
        fs w' = <[os_path_join FINAL_IMAGES_DIR name := content]> (fs w)
  | _ => fs w' = fs w
  end.
Proof.
  unfold on_frame, get_image_from_comfyui, write_file, fspath. mred. intros H.
  repeat (case_match; simplify_eq/=); try done.
  eexists. split; [| reflexivity]. discriminate.
Qed.

Lemma receive_loop_files prompt_id inbox w r w' :
  receive_loop E prompt_id inbox w = (r, w') ->
  match r with
  | Ret (Some name) =>
      exists content,
        content <> [] /\
        fs w' = <[os_path_join FINAL_IMAGES_DIR name := content]> (fs w)
  | _ => fs w' = fs w
  end.
Proof.
  revert w. induction inbox as [| [out | e] inbox IH]; intros w H.
  - simpl in H. unfold block in H. by inversion H.
  - rewrite receive_loop_cons in H.
    destruct (on_frame E prompt_id out _) as [[[[n |] |] | e |] w1] eqn:Hf;
      apply on_frame_files in Hf; simpl in Hf.
    + by inversion H; subst.
    + by inversion H; subst.
    + apply IH in H. by rewrite Hf in H.
    + by inversion H; subst.
    + by inversion H; subst.
  - simpl in H. unfold ws_recv in H. mred. by inversion H.
Qed.

(** X15: the watcher changes the local files only when it returns a name,
    and then only by writing the non-empty bytes of that one file in the
    directory of the final images; on [None], on an exception and while it
    waits, the files are untouched. *)
Theorem watcher_writes_at_most_one_file prompt_id client_id w r w' :
  get_final_image_path_from_websocket E prompt_id client_id w = (r, w') ->
  match r with
  | Ret (Some name) =>
      exists content,
        content <> [] /\
        fs w' = <[os_path_join FINAL_IMAGES_DIR name := content]> (fs w)
  | _ => fs w' = fs w
  end.
Proof.
  unfold get_final_image_path_from_websocket, create_connection, bind.
  destruct (ws_create_connection E _).
  { intros H. by inversion H. }
  unfold try_finally.
  destruct (receive_loop E prompt_id _ _) as [[a | e |] w1] eqn:Hloop;
    apply receive_loop_files in Hloop; simpl in *; intros H; inversion H; by subst.
Qed.




(** X14: of the output images of an "executed" event only the first counts:
    two awaited events with the same first descriptor are handled alike,
    whatever follows it in the list. *)
Theorem only_the_first_image_counts prompt_id m1 m2 first rest1 rest2 w :
  awaited prompt_id m1 -> awaited prompt_id m2 ->
  output_images m1 = Ok (JList (first :: rest1)) ->
  output_images m2 = Ok (JList (first :: rest2)) ->
  on_frame E prompt_id (FText (Some m1)) w = on_frame E prompt_id (FText (Some m2)) w.
Proof.
  intros (ty1 & pid1 & Hty1 & Hex1 & Hpid1 & Hjob1).
  intros (ty2 & pid2 & Hty2 & Hex2 & Hpid2 & Hjob2) H1 H2.
  unfold embedded_job_id, output_images, res_bind in *.
  destruct (getitem m1 "data") as [d1 | e] eqn:Hd1; [| discriminate].
  destruct (getitem d1 "output") as [o1 | e] eqn:Ho1; [| discriminate].
  destruct (getitem m2 "data") as [d2 | e] eqn:Hd2; [| discriminate].
  destruct (getitem d2 "output") as [o2 | e] eqn:Ho2; [| discriminate].
  unfold on_frame. mred.
  rewrite Hty1, Hty2. simpl. rewrite Hex1, Hex2, Hd1, Hd2. simpl.
  rewrite Hpid1, Hpid2. simpl. rewrite Hjob1, Hjob2, Ho1, Ho2. simpl.
  by rewrite H1, H2.
Qed.

End WatcherRuns.


(** ** More on the request handler *)

Section HandlerRuns.

Context {P : Type} (E : environment P).

Lemma has_field_of_lookup key r v :
  lacks key r = Ok false -> getitem (response_of r) key = Ok v -> has_field key r v.
Proof.
  destruct r as [[| | | | |d] |]; simpl; try discriminate.
  intros _ H. exists d. split; [reflexivity |].
  destruct (assoc key d); by inversion H.
Qed.

(** Up to the watcher the request is a chain of stages. *)
Lemma pipeline_reaches_watcher fg bg w prompt_id w4 :
  reaches_watcher E fg bg w prompt_id w4 ->
  pipeline E fg bg w =
  (do final_filename <- get_final_image_path_from_websocket E prompt_id (uuid4 E);
   publish_stage E final_filename) w4.
Proof.
  intros (timestamp & up & w2 & comfy & queue & Hasset & Hname & Hjob & Hid).
  destruct Hasset as (merged_filename & merged_path & w1 & Hcomposite & Hupload).
  destruct Hjob as (prompt_workflow & w3 & Hprepare & Hqueue).
  apply lacks_has in Hname as [Hn1 Hn2]. apply lacks_has in Hid as [Hi1 Hi2].
  unfold pipeline. unfold bind at 1. rewrite Hcomposite.
  unfold bind at 1. rewrite Hupload. unfold bind at 1, lift at 1.
  rewrite Hn1. unfold ret at 1. unfold bind at 1, lift at 1. rewrite Hn2.
  unfold ret at 1. unfold bind at 1. rewrite Hprepare.
  unfold bind at 1. rewrite Hqueue. unfold bind at 1, lift at 1. rewrite Hi1.
  unfold ret at 1. unfold bind at 1, lift at 1. rewrite Hi2. reflexivity.
Qed.

(** X4: when the watcher returns [None] the handler answers the 500 "could
    not retrived final image" in the very state the watcher left: the
    publisher is not called. *)
Theorem empty_result_is_a_500_without_publishing req fg bg w prompt_id w4 w5 :
  valid_request req fg bg ->
  reaches_watcher E fg bg w prompt_id w4 ->
  get_final_image_path_from_websocket E prompt_id (uuid4 E) w4 = (Ret None, w5) ->
  merge_images E req w =
  (Ret (JDict [("error",
                JStr "Workflow completed but could not retrived final image from ComfyUI")],
        500), w5).
Proof.
  intros Hreq Hreach Hwatch. rewrite (merge_images_valid _ _ _ _ _ Hreq).
  unfold try_except. rewrite (pipeline_reaches_watcher _ _ _ _ _ Hreach).
  unfold bind. by rewrite Hwatch.
Qed.


(** What the [try] body can return: the answer of an early exit, or the
    answer of the publish stage after the watcher returned. *)
Lemma pipeline_returns fg bg w resp w' :
  pipeline E fg bg w = (Ret resp, w') ->
  resp = upload_failed_response \/ resp = queue_failed_response \/
  exists prompt_id w4 final_filename w5,
    get_final_image_path_from_websocket E prompt_id (uuid4 E) w4
      = (Ret final_filename, w5) /\
    publish_stage E final_filename w5 = (Ret resp, w').
Proof.
  unfold pipeline, bind, ret. intros H.
  repeat (case_match; simplify_eq/=); auto.
  right. right. eauto 10.
Qed.

Lemma publish_stage_returns final_filename w5 resp w' :
  publish_stage E final_filename w5 = (Ret resp, w') ->
  (resp = no_final_image_response /\ w' = w5 /\
   (final_filename = None \/ final_filename = Some "")) \/
  exists name ok message,
    final_filename = Some name /\ name <> "" /\
    upload_final_image_to_ftp E (os_path_join FINAL_IMAGES_DIR name) name w5
      = (Ret (ok, message), w') /\
    resp = (if ok then
              if negb (configured (BASE_PUBLIC_URL E)) then no_base_url_response
              else success_response (env_str (BASE_PUBLIC_URL E) ++ name)
            else ftp_failed_response name message).
Proof.
  unfold publish_stage, bind, ret. intros H.
  destruct final_filename as [name |]; [| left; inversion H; auto].
  destruct (String.eqb name "") eqn:Hname.
  { apply String.eqb_eq in Hname. subst. left. inversion H. auto. }
  apply String.eqb_neq in Hname. right.
  destruct (upload_final_image_to_ftp E _ name w5) as [[[ok message] | e |] w6] eqn:Hpub;
    [| discriminate | discriminate].
  exists name, ok, message. split; [done |]. split; [done |].
  simpl in H. unfold ret in H.
  destruct ok; [destruct (negb (configured (BASE_PUBLIC_URL E))) |];
    inversion H; subst; split; done.
Qed.

(** X1: whatever the handler answers, its status is 200, 400 or 500; it is
    400 exactly when a file is missing from the request or has an empty
    name, and then nothing was done: the state is the one before the
    request. *)
Theorem handler_status req w body status w' :
  merge_images E req w = (Ret (body, status), w') ->
  (status = 200 \/ status = 400 \/ status = 500) /\
  (status = 400 <-> ~ exists fg bg, valid_request req fg bg) /\
  (status = 400 -> w' = w).
Proof.
  unfold merge_images.
  destruct (foreground_file req) as [fg |] eqn:Hfg;
    destruct (background_file req) as [bg |] eqn:Hbg.
  2-4: intros H; inversion H; subst; (split; [auto |]); (split; [| done]);
    (split; [| done]); intros _ (fg' & bg' & Hv);
    destruct Hv as (? & ? & _); congruence.
  destruct (String.eqb (filename fg) "" || String.eqb (filename bg) "") eqn:Hnames.
  - intros H. inversion H; subst. split; [auto |]. split; [| done].
    split; [| done]. intros _ (fg' & bg' & Hfg' & Hbg' & Hnf & Hnb).
    rewrite Hfg in Hfg'. rewrite Hbg in Hbg'. simplify_eq.
    apply orb_true_iff in Hnames as [Hn | Hn]; apply String.eqb_eq in Hn; done.
  - apply orb_false_iff in Hnames as [Hnf Hnb].
    apply String.eqb_neq in Hnf, Hnb.
    assert (exists fg' bg', valid_request req fg' bg') as Hvalid.
    { exists fg, bg. by repeat split. }
    assert (status = 200 \/ status = 500 ->
            (status = 200 \/ status = 400 \/ status = 500) /\
            (status = 400 <-> ~ (exists fg' bg', valid_request req fg' bg')) /\
            (status = 400 -> w' = w)) as Hdone.
    { intros [-> | ->]; (split; [auto |]); split; try done; split; try done. }
    unfold try_except.
    destruct (pipeline E fg bg w) as [[resp | e |] w1] eqn:Hpipe.
    + intros H. inversion H; subst. apply Hdone.
      apply pipeline_returns in Hpipe
        as [Hr | [Hr | (pid & w4 & final & w5 & _ & Hpub)]].
      * inversion Hr. auto.
      * inversion Hr. auto.
      * apply publish_stage_returns in Hpub
          as [(Hr & _) | (name & ok & message & _ & _ & _ & Hr)].
        -- inversion Hr. auto.
        -- destruct ok; [destruct (negb (configured _)) |]; inversion Hr; auto.
    + intros H. inversion H; subst. apply Hdone. auto.
    + discriminate.
Qed.

(** X2: the handler never lets an exception out: whatever is raised inside
    the [try] (decoding, compositing, the files, the job template, the
    watcher) becomes the 500 "An internal server error occurred " with
    [str(exception)] as details. *)
Theorem handler_never_raises req w :
  (forall e w', merge_images E req w <> (Raise e, w')) /\
  (forall fg bg e w',
      valid_request req fg bg ->
      pipeline E fg bg w = (Raise e, w') ->
      merge_images E req w =
      (Ret (JDict [("error", JStr "An internal server error occurred ");
                   ("details", JStr (exc_msg e))], 500), w')).
Proof.
  split.
  - intros e w'. unfold merge_images, try_except.
    repeat case_match; discriminate.
  - intros fg bg e w' Hreq Hpipe. rewrite (merge_images_valid _ _ _ _ _ Hreq).
    unfold try_except. by rewrite Hpipe.
Qed.


(** X6: when the WebSocket connection cannot be opened, the job is already
    submitted and the handler answers the 500 of the catch-all with
    [str(e)]. *)
Theorem refused_connection_is_a_500 req fg bg w prompt_id w4 e :
  valid_request req fg bg ->
  reaches_watcher E fg bg w prompt_id w4 ->
  ws_create_connection E (ws_url (uuid4 E)) = Some e ->
  merge_images E req w =
  (Ret (JDict [("error", JStr "An internal server error occurred ");
               ("details", JStr (exc_msg e))], 500), w4).
Proof.
  intros Hreq Hreach Hconn. rewrite (merge_images_valid _ _ _ _ _ Hreq).
  unfold try_except. rewrite (pipeline_reaches_watcher _ _ _ _ _ Hreach).
  unfold bind. by rewrite (connection_refused _ _ _ _ _ Hconn).
Qed.

(** X10: the composite stage writes one file,
    [merged_images/merged_result_<timestamp>.png], and the upload that
    follows reads that file and posts its bytes under that name: the
    [FileNotFoundError] branch of the upload is not taken. *)
Theorem asset_upload_finds_the_composite fg bg w timestamp merged_filename
    merged_path w1 :
  composite_stage E fg bg w = (Ret (timestamp, merged_filename, merged_path), w1) ->
  timestamp = now_timestamp E /\
  merged_filename = "merged_result_" ++ timestamp ++ ".png" /\
  merged_path = "merged_images/" ++ merged_filename /\
  exists png,
    fs w1 = <[merged_path := png]> (fs w) /\
    trace w1 = (trace w ++ [EFileWrite merged_path])%list /\
    upload_image_to_comfyui E merged_path merged_filename w1 =
    (Ret (post_upload_image E merged_filename png),
     World (fs w1) (sockets w1)
           (trace w1 ++ [EFileRead merged_path; EHttpPostUpload merged_filename])).
Proof.
  unfold composite_stage, write_file. mred. intros H.
  repeat (case_match; simplify_eq/=).
  split; [done |]. split; [done |]. split; [done |].
  eexists. split; [reflexivity |]. split; [reflexivity |].
  match goal with
  | |- upload_image_to_comfyui E ?p ?n ?st = _ =>
      pose proof (upload_image_reads_then_posts E p n st) as Hup
  end.
  simpl in Hup. rewrite lookup_insert_eq in Hup. exact Hup.
Qed.

End HandlerRuns.

(** ** The job descriptor *)

Lemma assoc_set_eq k x d : assoc k (assoc_set k x d) = Some x.
Proof.
  induction d as [| [k' v] d IH]; simpl.
  - by rewrite String.eqb_refl.
  - destruct (String.eqb k k') eqn:Hk; simpl; by rewrite Hk.
Qed.

Lemma assoc_set_ne k k' x d :
  k' <> k -> assoc k' (assoc_set k x d) = assoc k' d.
Proof.
  intros Hne. apply String.eqb_neq in Hne.
  induction d as [| [k0 v] d IH]; simpl.
  - by rewrite Hne.
  - destruct (String.eqb k k0) eqn:Hk; simpl.
    + apply String.eqb_eq in Hk. subst k0. by rewrite Hne.
    + destruct (String.eqb k' k0); [reflexivity | exact IH].
Qed.

(** X9: [prompt_workflow[node]['inputs'][key] = value] reads back as
    [value], and leaves the other inputs of the node and the other nodes as
    they were. *)
Theorem set_node_input_reads_back prompt_workflow node key value after :
  set_node_input prompt_workflow node key value = Ok after ->
  node_input after node key = Ok value /\
  (forall key', key' <> key ->
      node_input after node key' = node_input prompt_workflow node key') /\
  (forall node', node' <> node -> getitem after node' = getitem prompt_workflow node').
Proof.
  unfold set_node_input, node_input, res_bind. intros H.
  destruct prompt_workflow as [| | | | | d]; try discriminate. simpl in H.
  destruct (assoc node d) as [node_obj |] eqn:Hnode; [| discriminate].
  destruct node_obj as [| | | | | inputs_d]; try discriminate. simpl in H.
  destruct (assoc "inputs" inputs_d) as [inputs |] eqn:Hinputs; [| discriminate].
  destruct inputs as [| | | | | d']; try discriminate. simpl in H.
  inversion H. subst after. clear H. simpl.
  rewrite assoc_set_eq. simpl. rewrite assoc_set_eq. simpl.
  split; [by rewrite assoc_set_eq |]. split.
  - intros key' Hne. rewrite (assoc_set_ne _ _ _ _ Hne), Hnode. simpl.
    by rewrite Hinputs.
  - intros node' Hne. by rewrite (assoc_set_ne _ _ _ _ Hne).
Qed.

Section Workflow.

Context {P : Type} (E : environment P).

(** X8: the job descriptor that is submitted is the template read from
    [CheckInt.json] with the input [image] of node "16" set to the name
    the upload returned and the input [filename_prefix] of node "35" set to
    "checkint_" followed by the timestamp; every other node is the
    template's, and no file is changed. *)
Theorem prepared_workflow_has_both_slots comfyui_filename timestamp w prepared w' :
  prepare_workflow E comfyui_filename timestamp w = (Ret prepared, w') ->
  exists content template,
    fs w !! WORKFLOW_API_JSON_PATH = Some content /\
    json_load E content = Ok template /\
    node_input prepared "16" "image" = Ok comfyui_filename /\
    node_input prepared "35" "filename_prefix" = Ok (JStr ("checkint_" ++ timestamp)) /\
    (forall node, node <> "16" -> node <> "35" ->
        getitem prepared node = getitem template node) /\
    fs w' = fs w.
Proof.
  unfold prepare_workflow, read_file. mred. intros H.
  destruct (fs w !! WORKFLOW_API_JSON_PATH) as [content |] eqn:Hfile;
    [| discriminate]. simpl in H.
  destruct (json_load E content) as [template | e] eqn:Hload; [| discriminate].
  simpl in H.
  destruct (set_node_input template LOAD_IMAGE_NODE_ID "image" comfyui_filename)
    as [first | e] eqn:Hfirst; [| discriminate]. simpl in H.
  destruct (set_node_input first SAVE_IMAGE_NODE_ID "filename_prefix" _)
    as [second | e] eqn:Hsecond; [| discriminate]. simpl in H.
  inversion H. subst. clear H.
  apply set_node_input_reads_back in Hfirst as (Himage & _ & Hothers1).
  apply set_node_input_reads_back in Hsecond as (Hprefix & _ & Hothers2).
  exists content, template. split; [done |]. split; [done |].
  split; [| split; [exact Hprefix | split; [| done]]].
  - unfold node_input in *. rewrite (Hothers2 "16"); [exact Himage | discriminate].
  - intros node H16 H35. rewrite (Hothers2 node H35). by apply Hothers1.
Qed.

(** X7: a job template without the node "16" makes the handler answer the
    500 of the catch-all with details "'16'" (the [KeyError]); the composite
    is already uploaded, and no job is submitted. *)
Theorem template_without_the_load_node req fg bg w timestamp upload_response w2
    comfyui_filename content d :
  valid_request req fg bg ->
  asset_stage E fg bg w timestamp upload_response w2 ->
  has_field "name" upload_response comfyui_filename ->
  fs w2 !! WORKFLOW_API_JSON_PATH = Some content ->
  json_load E content = Ok (JDict d) ->
  assoc "16" d = None ->
  merge_images E req w =
  (Ret (JDict [("error", JStr "An internal server error occurred ");
               ("details", JStr "'16'")], 500),
   World (fs w2) (sockets w2) (trace w2 ++ [EFileRead WORKFLOW_API_JSON_PATH])).
Proof.
  intros Hreq (merged_filename & merged_path & w1 & Hcomposite & Hupload)
         Hname Hfile Hload Hnode.
  apply lacks_has in Hname as [Hn1 Hn2].
  rewrite (merge_images_valid _ _ _ _ _ Hreq). unfold try_except, pipeline.
  unfold bind at 1. rewrite Hcomposite. unfold bind at 1. rewrite Hupload.
  unfold bind at 1, lift at 1. rewrite Hn1. unfold ret at 1.
  unfold bind at 1, lift at 1. rewrite Hn2. unfold ret at 1.
  unfold bind at 1. unfold prepare_workflow, read_file.
  unfold bind at 1. rewrite Hfile. unfold bind at 1, lift at 1. rewrite Hload.
  unfold ret at 1. unfold bind at 1, lift at 1.
  unfold set_node_input, res_bind, LOAD_IMAGE_NODE_ID. simpl. rewrite Hnode.
  reflexivity.
Qed.

End Workflow.

(** ** Serving a final image *)


(** ** Names *)

Lemma length_append (a b : string) :
  String.length (a ++ b) = (String.length a + String.length b)%nat.
Proof.
  induction a as [| c a IH]; [reflexivity |].
  change (S (String.length (a ++ b)) = S (String.length a + String.length b)).
  by rewrite IH.
Qed.

Lemma append_cancel_r (a b s : string) : (a ++ s = b ++ s)%string -> a = b.
Proof.
  revert b. induction a as [| c a IH]; intros [| c' b] H.
  - reflexivity.
  - apply (f_equal String.length) in H. rewrite !length_append in H.
    simpl in H. lia.
  - apply (f_equal String.length) in H. rewrite !length_append in H.
    simpl in H. lia.
  - change (String c (a ++ s) = String c' (b ++ s)) in H.
    inversion H. f_equal. by apply IH.
Qed.

Section Names.

Context {P : Type} (E E' : environment P).

(** X11: two requests with distinct timestamps get distinct composite
    file names, distinct composite paths and distinct output prefixes. *)
Theorem distinct_timestamps_give_distinct_files fg bg w fg' bg' w'
    timestamp merged_filename merged_path w1
    timestamp' merged_filename' merged_path' w1' :
  composite_stage E fg bg w = (Ret (timestamp, merged_filename, merged_path), w1) ->
  composite_stage E' fg' bg' w'
    = (Ret (timestamp', merged_filename', merged_path'), w1') ->
  now_timestamp E <> now_timestamp E' ->
  merged_filename <> merged_filename' /\ merged_path <> merged_path' /\
  "checkint_" ++ timestamp <> "checkint_" ++ timestamp'.
Proof.
  intros H1 H2 Hne.
  apply asset_upload_finds_the_composite in H1 as (-> & -> & -> & _).
  apply asset_upload_finds_the_composite in H2 as (-> & -> & -> & _).
  assert ("merged_result_" ++ now_timestamp E ++ ".png"
          <> "merged_result_" ++ now_timestamp E' ++ ".png") as Hfile.
  { intros Heq. apply (inj (String.append "merged_result_")) in Heq.
    by apply append_cancel_r in Heq. }
  split; [exact Hfile |]. split.
  - intros Heq. by apply (inj (String.append "merged_images/")) in Heq.
  - intros Heq. by apply (inj (String.append "checkint_")) in Heq.
Qed.

End Names.

(** ** More on the compositor *)

Section CompositorRuns.

Context {P : Type} (E : environment P).

Lemma new_foreground_size_width W w h W' n :
  new_foreground_size W w h = Ok (W', n) -> W' = W.
Proof.
  unfold new_foreground_size, res_bind.
  destruct (py_truediv h w); [| discriminate].
  destruct (py_mul_int_float W a); [| discriminate].
  destruct (py_int a0); [| discriminate].
  intros H. by inversion H.
Qed.

(** X19: the foreground is pasted at x = 0 with its bottom edge on the
    bottom edge of the background, and every pixel of a row above the
    pasted foreground is the pixel of the background. *)
Theorem background_above_the_foreground_is_kept
    (background_image foreground_no_bg out : image P) new_width new_height :
  new_foreground_size (im_width background_image) (im_width foreground_no_bg)
                      (im_height foreground_no_bg) = Ok (new_width, new_height) ->
  composite E background_image foreground_no_bg = Ok out ->
  paste_position background_image (new_width, new_height)
    = (0, im_height background_image - new_height) /\
  forall i : nat,
    Z.of_nat i / im_width background_image
      < im_height background_image - new_height ->
    im_data out !! i = im_data background_image !! i.
Proof.
  intros Hsize Hout.
  pose proof (new_foreground_size_width _ _ _ _ _ Hsize) as ->.
  split.
  { unfold paste_position, size. by rewrite Z.sub_diag. }
  unfold composite, size, res_bind in Hout. rewrite Hsize in Hout.
  destruct (image_resize E foreground_no_bg _) as [resized | e]; [| discriminate].
  unfold image_paste in Hout.
  destruct (paste_accepts E background_image resized); [| discriminate].
  inversion Hout. subst out. clear Hout. simpl.
  intros i Hrow. rewrite list_lookup_imap.
  destruct (im_data background_image !! i) as [q |]; [| reflexivity]. simpl.
  f_equal. unfold paste_pixel, paste_position, size. simpl.
  assert (Z.leb 0 (Z.of_nat i / im_width background_image
                   - (im_height background_image - new_height)) = false) as ->.
  { apply Z.leb_gt. lia. }
  by rewrite andb_false_r.
Qed.

(** X20: a foreground so flat that its scaled height is below one pixel
    ([fg_height * background_width < fg_width]) is not composited: [resize]
    raises the [ValueError] "height and width must be > 0". *)
Theorem flat_foreground_cannot_be_scaled (background_image foreground_no_bg : image P) :
  0 < im_width foreground_no_bg < 2 ^ 25 ->
  0 < im_height foreground_no_bg < 2 ^ 25 ->
  0 < im_width background_image < 2 ^ 25 ->
  im_height foreground_no_bg * im_width background_image
    < im_width foreground_no_bg ->
  composite E background_image foreground_no_bg
    = Err (ValueError "height and width must be > 0").
Proof.
  intros Hw Hh HW Hflat.
  destruct (new_foreground_size_bounds _ _ _ Hw Hh HW) as (n & Hsize & Hn & _).
  rewrite Z.div_small in Hn by lia.
  unfold composite, size, res_bind. rewrite Hsize. unfold image_resize.
  assert (Z.eqb (im_height foreground_no_bg) n = false) as ->
    by (apply Z.eqb_neq; lia).
  rewrite andb_false_r.
  assert (Z.ltb n 1 = true) as -> by (apply Z.ltb_lt; lia).
  by rewrite orb_true_r.
Qed.

End CompositorRuns.

(** ** Runs on the mocked service *)

Lemma handler_status_witness :
  let unnamed := Request (Some (FileStorage "" [Byte.x01])) (Some beach) in
  exists body w',
    merge_images happy unnamed Mock.world0 = (Ret (body, 400), w') /\
    w' = Mock.world0.
Proof.
  intros unnamed.
  assert (exists body w',
             merge_images happy unnamed Mock.world0 = (Ret (body, 400), w'))
    as (body & w' & Hrun).
  { do 2 eexists. reflexivity. }
  exists body, w'. split; [exact Hrun |].
  destruct (handler_status happy unnamed Mock.world0 body 400 w' Hrun)
    as (_ & _ & Hsame).
  exact (Hsame eq_refl).
Defined.

Lemma handler_never_raises_witness :
  let undecodable := Request (Some (FileStorage "empty.png" [])) (Some beach) in
  merge_images happy undecodable Mock.world0 =
  (Ret (JDict [("error", JStr "An internal server error occurred ");
               ("details", JStr "cannot identify image file")], 500),
   Mock.world0).
Proof.
  intros undecodable.
  destruct (handler_never_raises happy undecodable Mock.world0) as [_ H].
  apply (H (FileStorage "empty.png" []) beach
           (Exc "UnidentifiedImageError" "cannot identify image file") Mock.world0).
  - repeat split; discriminate.
  - reflexivity.
Defined.


Lemma empty_result_is_a_500_without_publishing_witness :
  let E := Mock.env (Mock.watching
                       [Recv (FText (Some (Mock.executed "job-1" [])))] None) in
  exists w5,
    merge_images E Mock.request0 Mock.world0 =
    (Ret (JDict [("error",
                  JStr "Workflow completed but could not retrived final image from ComfyUI")],
          500), w5).
Proof.
  intros E. eexists.
  eapply (empty_result_is_a_500_without_publishing E Mock.request0 person beach).
  - exact request0_valid.
  - run_to_watcher.
  - vm_compute. reflexivity.
Defined.


Lemma refused_connection_is_a_500_witness :
  exists w4,
    merge_images refusing_socket Mock.request0 Mock.world0 =
    (Ret (JDict [("error", JStr "An internal server error occurred ");
                 ("details", JStr "[Errno 111] Connection refused")], 500), w4).
Proof.
  eexists.
  eapply (refused_connection_is_a_500 refusing_socket Mock.request0 person beach
            Mock.world0 _ _ refused_connection).
  - exact request0_valid.
  - run_to_watcher.
  - reflexivity.
Defined.

Lemma template_without_the_load_node_witness :
  exists w',
    merge_images bad_template Mock.request0 Mock.world0 =
    (Ret (JDict [("error", JStr "An internal server error occurred ");
                 ("details", JStr "'16'")], 500), w').
Proof.
  eexists.
  eapply (template_without_the_load_node bad_template Mock.request0 person beach).
  - exact request0_valid.
  - run_stages.
  - run_stages.
  - vm_compute. reflexivity.
  - reflexivity.
  - reflexivity.
Defined.

Lemma set_node_input_reads_back_witness :
  exists after,
    set_node_input Mock.workflow "16" "image" (JStr "merged.png") = Ok after /\
    node_input after "16" "image" = Ok (JStr "merged.png") /\
    getitem after "35" = getitem Mock.workflow "35".
Proof.
  eexists. split; [reflexivity |].
  edestruct (set_node_input_reads_back Mock.workflow "16" "image" (JStr "merged.png"))
    as (Hread & _ & Hother).
  - reflexivity.
  - split; [exact Hread |]. apply Hother. discriminate.
Defined.

Lemma prepared_workflow_has_both_slots_witness :
  exists prepared w',
    prepare_workflow happy (JStr "merged.png") "20240101_120000000000" Mock.world0
      = (Ret prepared, w') /\
    node_input prepared "16" "image" = Ok (JStr "merged.png") /\
    node_input prepared "35" "filename_prefix"
      = Ok (JStr "checkint_20240101_120000000000").
Proof.
  assert (exists prepared w',
             prepare_workflow happy (JStr "merged.png") "20240101_120000000000"
                              Mock.world0 = (Ret prepared, w'))
    as (prepared & w' & Hrun).
  { do 2 eexists. vm_compute. reflexivity. }
  exists prepared, w'. split; [exact Hrun |].
  destruct (prepared_workflow_has_both_slots happy _ _ _ _ _ Hrun)
    as (content & template & _ & _ & Himage & Hprefix & _).
  split; [exact Himage | exact Hprefix].
Defined.

Lemma asset_upload_finds_the_composite_witness :
  exists timestamp merged_filename merged_path w1 png,
    composite_stage happy person beach Mock.world0
      = (Ret (timestamp, merged_filename, merged_path), w1) /\
    merged_path = "merged_images/merged_result_20240101_120000000000.png" /\
    fs w1 = <[merged_path := png]> (fs Mock.world0).
Proof.
  assert (exists t f p w1,
             composite_stage happy person beach Mock.world0 = (Ret (t, f, p), w1))
    as (t & f & p & w1 & Hrun).
  { do 4 eexists. vm_compute. reflexivity. }
  destruct (asset_upload_finds_the_composite happy _ _ _ _ _ _ _ Hrun)
    as (Ht & Hf & Hp & png & Hfs & _).
  exists t, f, p, w1, png. split; [exact Hrun |]. split; [| exact Hfs].
  rewrite Hp, Hf, Ht. reflexivity.
Defined.

Lemma distinct_timestamps_give_distinct_files_witness :
  "merged_images/merged_result_20240101_120000000000.png"
  <> "merged_images/merged_result_20240101_120000000001.png".
Proof.
  eapply (distinct_timestamps_give_distinct_files happy later person beach
            Mock.world0 person beach Mock.world0).
  - vm_compute. reflexivity.
  - vm_compute. reflexivity.
  - discriminate.
Defined.



Lemma only_the_first_image_counts_witness :
  on_frame happy (JStr "job-1")
    (FText (Some (Mock.executed "job-1" [Mock.descriptor "a.png";
                                         Mock.descriptor "b.png"]))) Mock.world0 =
  on_frame happy (JStr "job-1")
    (FText (Some (Mock.executed "job-1" [Mock.descriptor "a.png"]))) Mock.world0.
Proof.
  apply (only_the_first_image_counts happy (JStr "job-1") _ _
           (Mock.descriptor "a.png") [Mock.descriptor "b.png"] []).
  - apply executed_awaited.
  - apply executed_awaited.
  - reflexivity.
  - reflexivity.
Defined.

Lemma watcher_writes_at_most_one_file_witness :
  let broken := run_watcher [Recv (FText None)] None in
  fs (snd broken) = fs Mock.world0.
Proof.
  intros broken.
  apply (watcher_writes_at_most_one_file
           (Mock.env (Mock.watching [Recv (FText None)] None))
           (JStr "job-1") "c0ffee" Mock.world0 (fst broken) (snd broken)
           (surjective_pairing _)).
Defined.

Lemma publisher_sends_a_prefix_of_the_session_witness :
  let refusing :=
    Mock.env (Mock.Scenario Mock.uploaded Mock.queued [] None Mock.host
                            (Some Mock.refused) Mock.base_url) in
  let w := World {[ "final_images/out.png" := Mock.image_bytes ]} 0 [] in
  exists w' k,
    upload_final_image_to_ftp refusing "final_images/out.png" "out.png" w
      = (Ret (false, "550 Permission denied"), w') /\
    trace w' = take k (ftp_session refusing "final_images/out.png" "out.png") /\
    fs w' = fs w.
Proof.
  intros refusing w.
  assert (exists w',
             upload_final_image_to_ftp refusing "final_images/out.png" "out.png" w
             = (Ret (false, "550 Permission denied"), w')) as (w' & Hrun).
  { eexists. vm_compute. reflexivity. }
  destruct (publisher_sends_a_prefix_of_the_session refusing _ _ _ _ _ _ Hrun)
    as (Hfs & _ & k & Htrace & _).
  exists w', k. split; [exact Hrun |]. split; [exact Htrace | exact Hfs].
Defined.



Lemma background_above_the_foreground_is_kept_witness :
  let background_image := Image 2 3 [10; 20; 30; 40; 50; 60] in
  let foreground_no_bg := Image 2 2 [1; 2; 3; 4] in
  exists out,
    composite any_env background_image foreground_no_bg = Ok out /\
    im_data out !! 0%nat = Some 10 /\ im_data out !! 1%nat = Some 20.
Proof.
  intros background_image foreground_no_bg.
  exists (Image 2 3 [10; 20; 1; 2; 3; 4]).
  assert (composite any_env background_image foreground_no_bg
          = Ok (Image 2 3 [10; 20; 1; 2; 3; 4])) as Hrun
    by (vm_compute; reflexivity).
  split; [exact Hrun |].
  destruct (background_above_the_foreground_is_kept any_env background_image
              foreground_no_bg _ 2 2 eq_refl Hrun) as [_ Hkept].
  split; [apply (Hkept 0%nat) | apply (Hkept 1%nat)]; reflexivity.
Defined.

Lemma flat_foreground_cannot_be_scaled_witness :
  composite any_env (Image 2 2 [1; 2; 3; 4]) (Image 5 1 [1; 2; 3; 4; 5])
  = Err (ValueError "height and width must be > 0").
Proof.
  apply (flat_foreground_cannot_be_scaled any_env (Image 2 2 [1; 2; 3; 4])
           (Image 5 1 [1; 2; 3; 4; 5])
           (conj eq_refl eq_refl) (conj eq_refl eq_refl) (conj eq_refl eq_refl)
           eq_refl).
Defined.
